(** * ClangCoverageTestExecutor: glob matcher, source filter and coverage aggregator

    A shallow embedding of
    [src/Scripts/TesterPlugins/TestExecutors/ClangCoverageTestExecutor.py]
    ([_CodeCoverageExecutor.ExtractCoverageInfo] and the closures it
    defines), together with the properties the specification states about
    them.

    Conventions of the embedding:
    - Python [str] is [string]; Python [int] is [Z] (unbounded);
    - a Python value that may be [None] is an [option];
    - a raised exception is the left injection of [result]; [assert]
      statements are executed (the interpreter does not run with [-O]);
    - the report is taken line by line as [json.loads] returns it, and the
      logging through [dm] is left out;
    - the two [while] loops of the matcher keep the source's index cursors
      and run on fuel; [while_loop_total] and [skip_until_total] show that
      the fuel the embedding supplies is never exhausted. *)

From Stdlib Require Import String Ascii List ZArith Bool Arith Lia Permutation.
Import ListNotations.

Local Open Scope string_scope.
Local Open Scope list_scope.

(* ===================================================================== *)
(** ** Python helpers *)
(* ===================================================================== *)

Module Py.

(** [s.split("::")]: the leftmost, non-overlapping occurrences of the
    separator cut the string; [cur] is the segment read so far.  The empty
    string splits into one empty segment, as in Python. *)
Fixpoint split_from (cur s : string) : list string :=
  match s with
  | EmptyString => [cur]
  | String a s' =>
      match s' with
      | EmptyString => [(cur ++ String a EmptyString)%string]
      | String b rest =>
          if (Ascii.eqb a ":" && Ascii.eqb b ":")%bool
          then cur :: split_from EmptyString rest
          else split_from (cur ++ String a EmptyString)%string s'
      end
  end.

Definition split (s : string) : list string := split_from EmptyString s.

(** [a or b] on lists: the first operand unless it is falsy (empty). *)
Definition list_or {A : Type} (a b : list A) : list A :=
  match a with
  | [] => b
  | _ :: _ => a
  end.

(** Truthiness of a list, as in [if xs and ...]. *)
Definition truthy {A : Type} (l : list A) : bool :=
  match l with
  | [] => false
  | _ :: _ => true
  end.

(** [any(f(x) for x in l)] and [all(f(x) for x in l)]. *)
Definition any {A : Type} (f : A -> bool) (l : list A) : bool := existsb f l.
Definition all {A : Type} (f : A -> bool) (l : list A) : bool := forallb f l.

(** [xs or []] for an optional list. *)
Definition or_empty {A : Type} (o : option (list A)) : list A :=
  match o with
  | Some l => list_or l []
  | None => []
  end.

End Py.

(* ===================================================================== *)
(** ** CreateItemMatcher *)
(* ===================================================================== *)

Module ItemMatcher.

(** How the outer [while] of [Impl] is left: by the [return True] of a
    trailing ["*"], or by falling out of the loop (its condition failed, or
    the [break] of a literal mismatch) with the cursors where they stand. *)
Inductive loop_exit : Type :=
| ReturnTrue (glob_part_index value_part_index : nat)
| LoopEnd (glob_part_index value_part_index : nat).

(** The inner loop:
    [while value_part_index < len(value_parts)
           and value_parts[value_part_index] != next_glob_part:
         value_part_index += 1] *)
Fixpoint skip_until (fuel : nat) (value_parts : list string)
    (next_glob_part : string) (value_part_index : nat) : option nat :=
  match fuel with
  | O => None
  | S fuel' =>
      if ((value_part_index <? length value_parts)%nat
          && negb (String.eqb (nth value_part_index value_parts "") next_glob_part))%bool
      then skip_until fuel' value_parts next_glob_part (S value_part_index)
      else Some value_part_index
  end.

(** The outer loop of [Impl], one iteration per unit of fuel. *)
Fixpoint while_loop (fuel : nat) (glob_parts value_parts : list string)
    (glob_part_index value_part_index : nat) : option loop_exit :=
  match fuel with
  | O => None
  | S fuel' =>
      if ((glob_part_index <? length glob_parts)%nat
          && (value_part_index <? length value_parts)%nat)%bool
      then
        let glob_part := nth glob_part_index glob_parts "" in
        let value_part := nth value_part_index value_parts "" in
        if String.eqb glob_part "*{1}" then
          while_loop fuel' glob_parts value_parts
            (S glob_part_index) (S value_part_index)
        else if String.eqb glob_part "*" then
          if (glob_part_index + 1 =? length glob_parts)%nat then
            Some (ReturnTrue glob_part_index value_part_index)
          else
            let next_glob_part := nth (glob_part_index + 1) glob_parts "" in
            match skip_until (S (length value_parts)) value_parts
                    next_glob_part value_part_index with
            | None => None
            | Some value_part_index' =>
                while_loop fuel' glob_parts value_parts
                  (S glob_part_index) value_part_index'
            end
        else if negb (String.eqb glob_part value_part) then
          Some (LoopEnd glob_part_index value_part_index)
        else
          while_loop fuel' glob_parts value_parts
            (S glob_part_index) (S value_part_index)
      else Some (LoopEnd glob_part_index value_part_index)
  end.

(** The run of the loop from both cursors at 0. *)
Definition run (glob_parts value_parts : list string) : option loop_exit :=
  while_loop (S (length glob_parts)) glob_parts value_parts 0 0.

(** The value [Impl] returns for a way of leaving the loop; the second case
    is the last line of [Impl]. *)
Definition exit_value (glob_parts value_parts : list string)
    (e : loop_exit) : bool :=
  match e with
  | ReturnTrue _ _ => true
  | LoopEnd glob_part_index value_part_index =>
      ((glob_part_index =? length glob_parts)%nat
       && (value_part_index =? length value_parts)%nat)%bool
  end.

(** [Impl], with the split glob captured as in the closure. *)
Definition Impl (glob_parts : list string) (value : string) : option bool :=
  let value_parts := Py.split value in
  option_map (exit_value glob_parts value_parts) (run glob_parts value_parts).

(** [CreateItemMatcher(glob_value)]: the closure, as a total predicate.  The
    [None] branch is dead code of the embedding ([Impl_total]). *)
Definition CreateItemMatcher (glob_value : string) : string -> bool :=
  let glob_parts := Py.split glob_value in
  fun value =>
    match Impl glob_parts value with
    | Some b => b
    | None => false
    end.

(** [Matches(pattern, value)] of the specification. *)
Definition Matches (pattern value : string) : bool :=
  CreateItemMatcher pattern value.

End ItemMatcher.

(* ===================================================================== *)
(** ** Data of the aggregator *)
(* ===================================================================== *)

(** Modelled from the spec: [CodeCoverageContentFilter] is imported from
    [Common_FoundationEx]; the code reads its two optional lists of glob
    strings, [includes] and [excludes]. *)
Record CodeCoverageContentFilter : Type := {
  includes : option (list string);
  excludes : option (list string)
}.

(** Modelled from the spec: [CoverageResult] is imported from
    [Common_FoundationEx]; a pair of counts built positionally as
    [CoverageResult(covered, uncovered)]. *)
Record CoverageResult : Type := {
  covered : Z;
  uncovered : Z
}.

(** The object under the ["file"] key of a report line.  A field is [None]
    when the key is absent. *)
Record FileData : Type := {
  file_name : option string;
  file_total_covered : option Z;
  file_total_uncovered : option Z
}.

(** The object under the ["method"] key of a report line. *)
Record MethodData : Type := {
  method_name : option string;
  method_total_covered : option Z;
  method_total_uncovered : option Z
}.

(** One line of the report after [json.loads]: the two keys the code reads.
    Values are of the types the report format gives them (names are
    strings, counts are integers, ["file"] and ["method"] hold objects). *)
Record ReportRecord : Type := {
  file : option FileData;
  method : option MethodData
}.

(** [{}], the default of [data.get("file", {})]. *)
Definition empty_file_data : FileData :=
  {| file_name := None; file_total_covered := None; file_total_uncovered := None |}.

(** The exceptions the extraction raises in this model. *)
Inductive exception : Type :=
| AssertionError
| FileNotFoundError.

(** A computation that returns a value or raises. *)
Definition result (A : Type) : Type := (exception + A)%type.

Definition ret {A : Type} (a : A) : result A := inr a.
Definition raise {A : Type} (e : exception) : result A := inl e.

Definition bind {A B : Type} (m : result A) (k : A -> result B) : result B :=
  match m with
  | inl e => inl e
  | inr a => k a
  end.

Notation "x <- m ;; k" := (bind m (fun x => k))
  (at level 61, m at next level, right associativity).

(** [x = ...; assert x is not None]. *)
Definition assert_not_None {A : Type} (o : option A) : result A :=
  match o with
  | Some a => ret a
  | None => raise AssertionError
  end.

(** [for x in l: st = body(st, x)], stopping at the first exception. *)
Fixpoint for_each {S A : Type} (body : S -> A -> result S) (l : list A)
    (st : S) : result S :=
  match l with
  | [] => ret st
  | x :: l' => st' <- body st x ;; for_each body l' st'
  end.

(** The files the extraction can open: a path maps to the parsed lines of
    the file there, or to [None] when there is no such file. *)
Definition filesystem : Type := string -> option (list ReportRecord).

(** [with coverage_filename.open() as f: f.readlines()], every line parsed. *)
Definition open_readlines (fs : filesystem) (path : string)
  : result (list ReportRecord) :=
  match fs path with
  | Some lines => ret lines
  | None => raise FileNotFoundError
  end.

(** The compiler context: the two keys [ExtractCoverageInfo] looks up. *)
Record CompilerContext : Type := {
  inputs : option (list string);
  input : option string
}.

(* ===================================================================== *)
(** ** CreateSourceMatcher *)
(* ===================================================================== *)

Module SourceMatcher.

Import ItemMatcher.

Definition CreateSourceMatcher (filter : CodeCoverageContentFilter)
  : string -> bool :=
  let include_funcs := map CreateItemMatcher (Py.or_empty (includes filter)) in
  let exclude_funcs := map CreateItemMatcher (Py.or_empty (excludes filter)) in
  fun value =>
    if (Py.truthy exclude_funcs
        && Py.any (fun exclude_func => exclude_func value) exclude_funcs)%bool
    then false
    else if (Py.truthy include_funcs
             && negb (Py.any (fun include_func => include_func value) include_funcs))%bool
    then false
    else true.

(** [Accepts(identifier)] of the specification, for a filter. *)
Definition Accepts (filter : CodeCoverageContentFilter) (identifier : string)
  : bool :=
  CreateSourceMatcher filter identifier.

End SourceMatcher.

(* ===================================================================== *)
(** ** ApplyFunc and ExtractCoverageInfo *)
(* ===================================================================== *)

Section Aggregator.

(** [Path(filename).match(glob)] of [pathlib], which the code calls and
    this development does not interpret. *)
Variable path_match : string -> string -> bool.

(** The test of the first loop of [ApplyFunc]:
    [len(v.includes or []) == 1 and v.includes[0] == "*" and v.excludes is None].
    When the first conjunct holds, [v.includes] is the one-element list
    that [v.includes or []] is, so both are indexed alike. *)
Definition is_match_all (v : CodeCoverageContentFilter) : bool :=
  ((length (Py.or_empty (includes v)) =? 1)%nat
   && String.eqb (nth 0 (Py.or_empty (includes v)) "") "*"
   && match excludes v with None => true | Some _ => false end)%bool.

(** One iteration of the first loop of [ApplyFunc], on the item [(k, v)]:
    the pair [(should_match_all_file_globs, source_matchers)] after it. *)
Definition add_matcher
    (acc : list string * list (string * (string -> bool)))
    (kv : string * CodeCoverageContentFilter)
  : list string * list (string * (string -> bool)) :=
  let '(should_match_all_file_globs, source_matchers) := acc in
  let '(k, v) := kv in
  if is_match_all v
  then (should_match_all_file_globs ++ [k], source_matchers)
  else (should_match_all_file_globs,
        source_matchers ++ [(k, SourceMatcher.CreateSourceMatcher v)]).

(** The first loop of [ApplyFunc], over [source_filters.items()], from the
    empty set and the empty dictionary.  The dictionary is only iterated,
    never looked up, so it is the list of its items; their keys are
    distinct, so [set.add] and the assignment [source_matchers[k] = ...]
    both append. *)
Definition create_matchers
    (source_filters : list (string * CodeCoverageContentFilter))
  : list string * list (string * (string -> bool)) :=
  fold_left add_matcher source_filters ([], []).

(** The two accumulators of the second loop. *)
Record loop_state : Type := {
  file_result : option CoverageResult;
  result_sum : option (Z * Z)
}.

Definition is_None {A : Type} (o : option A) : bool :=
  match o with
  | None => true
  | Some _ => false
  end.

(** [data.get("file", {})]. *)
Definition get_file (data : ReportRecord) : FileData :=
  match file data with
  | Some fd => fd
  | None => empty_file_data
  end.

(** The body of [for line in f.readlines()], on the parsed line [data].
    [assert method_data] fails on [None] and on an empty object; an empty
    object has no name either, so both failures are the [AssertionError] of
    the two assertions that follow the lookup of ["method"]. *)
Definition loop_body
    (should_match_all_file_globs : list string)
    (source_matchers : list (string * (string -> bool)))
    (st : loop_state) (data : ReportRecord) : result loop_state :=
  filename <- assert_not_None (file_name (get_file data)) ;;
  let file_data := get_file data in
  match file_total_covered file_data, file_total_uncovered file_data with
  | Some file_covered, Some file_uncovered =>
      if (is_None (file_result st)
          && Py.any (fun should_match_all_file_glob =>
                       path_match filename should_match_all_file_glob)
                    should_match_all_file_globs)%bool
      then ret {| file_result := Some {| covered := file_covered;
                                         uncovered := file_uncovered |};
                  result_sum := result_sum st |}
      else ret st
  | _, _ =>
      let match_funcs :=
        map snd (filter (fun sm => path_match filename (fst sm)) source_matchers) in
      method_data <- assert_not_None (method data) ;;
      method_name <- assert_not_None (method_name method_data) ;;
      if (Py.truthy match_funcs
          && Py.all (fun match_func => match_func method_name) match_funcs)%bool
      then
        total_covered <- assert_not_None (method_total_covered method_data) ;;
        total_uncovered <- assert_not_None (method_total_uncovered method_data) ;;
        let result0 := match result_sum st with
                       | None => (0, 0)%Z
                       | Some r => r
                       end in
        ret {| file_result := file_result st;
               result_sum := Some (fst result0 + total_covered,
                                   snd result0 + total_uncovered)%Z |}
      else ret st
  end.

(** The last lines of [ApplyFunc]. *)
Definition select_result (st : loop_state) : option CoverageResult :=
  match result_sum st with
  | Some r => Some {| covered := fst r; uncovered := snd r |}
  | None =>
      match file_result st with
      | Some fr => Some fr
      | None => None
      end
  end.

Definition initial_state : loop_state :=
  {| file_result := None; result_sum := None |}.

(** [ApplyFunc(source_filters)]; [fs] and [coverage_filename] are what the
    closure captures and reads. *)
Definition ApplyFunc (fs : filesystem) (coverage_filename : string)
    (source_filters : list (string * CodeCoverageContentFilter))
  : result (option CoverageResult) :=
  let '(should_match_all_file_globs, source_matchers) :=
    create_matchers source_filters in
  lines <- open_readlines fs coverage_filename ;;
  st <- for_each (loop_body should_match_all_file_globs source_matchers)
          lines initial_state ;;
  ret (select_result st).

(** [ApplyFilters] of [Common_FoundationEx], which receives [ApplyFunc] as a
    callback and is not part of this repository. *)
Variable ApplyFilters :
  string -> list (option string) ->
  (list (string * CodeCoverageContentFilter) -> result (option CoverageResult)) ->
  result (option CoverageResult).

(** The [source_filenames] that [ExtractCoverageInfo] derives from the
    compiler context. *)
Definition source_filenames_of (compiler_context : CompilerContext)
  : list (option string) :=
  match inputs compiler_context with
  | Some source_filenames => map Some source_filenames
  | None =>
      let source_filenames := input compiler_context in
      Py.list_or [source_filenames] []
  end.

Definition ExtractCoverageInfo (fs : filesystem)
    (compiler_context : CompilerContext)
    (coverage_filename binary_filename : string) : result (Z * Z) :=
  let source_filenames := source_filenames_of compiler_context in
  r <- ApplyFilters binary_filename source_filenames
         (ApplyFunc fs coverage_filename) ;;
  match r with
  | None => ret (0, 0)%Z
  | Some cr => ret (covered cr, uncovered cr)
  end.

End Aggregator.

(* ===================================================================== *)
(** ** What a report contributes, record by record *)
(* ===================================================================== *)

Section Contributions.

Variable path_match : string -> string -> bool.
Variable source_filters : list (string * CodeCoverageContentFilter).

(** Both totals sit directly under the ["file"] key. *)
Definition has_file_totals (data : ReportRecord) : bool :=
  (negb (is_None (file_total_covered (get_file data)))
   && negb (is_None (file_total_uncovered (get_file data))))%bool.

(** The configured filters, other than the match-all ones, whose glob
    matches [filename]. *)
Definition matched_filters (filename : string)
  : list (string * CodeCoverageContentFilter) :=
  filter (fun kv => (negb (is_match_all (snd kv))
                     && path_match filename (fst kv))%bool)
         source_filters.

(** Some glob matched and every matched filter accepts the method. *)
Definition every_matched_accepts (filename method_name : string) : bool :=
  (Py.truthy (matched_filters filename)
   && forallb (fun kv => SourceMatcher.Accepts (snd kv) method_name)
              (matched_filters filename))%bool.

(** Some matched filter accepts the method. *)
Definition some_matched_accepts (filename method_name : string) : bool :=
  existsb (fun kv => SourceMatcher.Accepts (snd kv) method_name)
          (matched_filters filename).

(** [filename] matches the glob of a match-all filter. *)
Definition matches_a_match_all_glob (filename : string) : bool :=
  existsb (fun kv => (is_match_all (snd kv)
                      && path_match filename (fst kv))%bool)
          source_filters.

(** [filename] matches some configured glob, of either kind. *)
Definition matches_some_glob (filename : string) : bool :=
  existsb (fun kv => path_match filename (fst kv)) source_filters.

(** The name and the counts of a method-level record that has all of its
    fields. *)
Definition method_fields (data : ReportRecord)
  : option (string * string * Z * Z) :=
  match file_name (get_file data), method data with
  | Some filename, Some md =>
      match method_name md, method_total_covered md, method_total_uncovered md with
      | Some name, Some c, Some u => Some (filename, name, c, u)
      | _, _, _ => None
      end
  | _, _ => None
  end.

(** The counts a record adds to the method-level sum, if it adds any. *)
Definition contribution (data : ReportRecord) : option (Z * Z) :=
  if has_file_totals data then None
  else
    match method_fields data with
    | Some (filename, name, c, u) =>
        if every_matched_accepts filename name then Some (c, u) else None
    | None => None
    end.

(** The totals a file-level record offers as the fallback result. *)
Definition file_offer (data : ReportRecord) : option CoverageResult :=
  match file_name (get_file data),
        file_total_covered (get_file data),
        file_total_uncovered (get_file data) with
  | Some filename, Some c, Some u =>
      if matches_a_match_all_glob filename
      then Some {| covered := c; uncovered := u |}
      else None
  | _, _, _ => None
  end.

(** A record that the loop body reads without raising. *)
Definition record_ok (data : ReportRecord) : bool :=
  match file_name (get_file data) with
  | None => false
  | Some filename =>
      if has_file_totals data then true
      else
        match method data with
        | None => false
        | Some md =>
            match method_name md with
            | None => false
            | Some name =>
                if every_matched_accepts filename name
                then (negb (is_None (method_total_covered md))
                      && negb (is_None (method_total_uncovered md)))%bool
                else true
            end
        end
  end.

(** Adding a contribution to the running sum, which starts at [None]. *)
Definition add_counts (acc : option (Z * Z)) (cu : Z * Z) : option (Z * Z) :=
  match acc with
  | None => Some (0 + fst cu, 0 + snd cu)%Z
  | Some r => Some (fst r + fst cu, snd r + snd cu)%Z
  end.

(** The contributions of the lines of a report, in order. *)
Fixpoint contributions (lines : list ReportRecord) : list (Z * Z) :=
  match lines with
  | [] => []
  | data :: lines' =>
      match contribution data with
      | Some cu => cu :: contributions lines'
      | None => contributions lines'
      end
  end.

(** The sum of the method-level counts of a report; [None] when no record
    contributes. *)
Definition method_sum (lines : list ReportRecord) : option (Z * Z) :=
  fold_left add_counts (contributions lines) None.

(** The first file-level offer of a report. *)
Fixpoint first_file_offer (lines : list ReportRecord) : option CoverageResult :=
  match lines with
  | [] => None
  | data :: lines' =>
      match file_offer data with
      | Some fr => Some fr
      | None => first_file_offer lines'
      end
  end.

(** The result the specification selects for a report. *)
Definition selected (lines : list ReportRecord) : option CoverageResult :=
  match method_sum lines with
  | Some r => Some {| covered := fst r; uncovered := snd r |}
  | None => first_file_offer lines
  end.

(** The state after the loop body has read a record without raising: a
    file-level offer is kept only when no offer was kept before, and a
    contribution is added to the running sum. *)
Definition after_record (st : loop_state) (data : ReportRecord) : loop_state :=
  {| file_result := match file_result st with
                    | Some fr => Some fr
                    | None => file_offer data
                    end;
     result_sum := match contribution data with
                   | Some cu => add_counts (result_sum st) cu
                   | None => result_sum st
                   end |}.

(** A record that lacks a field the loop body asserts on its way. *)
Inductive lacks_field (data : ReportRecord) : Prop :=
| lacks_filename :
    file_name (get_file data) = None ->
    lacks_field data
| lacks_method :
    has_file_totals data = false ->
    method data = None ->
    lacks_field data
| lacks_method_name (md : MethodData) :
    has_file_totals data = false ->
    method data = Some md ->
    method_name md = None ->
    lacks_field data
| lacks_method_total (filename : string) (md : MethodData) (name : string) :
    has_file_totals data = false ->
    file_name (get_file data) = Some filename ->
    method data = Some md ->
    method_name md = Some name ->
    every_matched_accepts filename name = true ->
    method_total_covered md = None \/ method_total_uncovered md = None ->
    lacks_field data.

End Contributions.

(** Two calls of [ApplyFunc] in a row, on the same file system and filters:
    the pair of their results. *)
Definition ApplyFunc_twice (path_match : string -> string -> bool)
    (fs : filesystem) (coverage_filename : string)
    (source_filters : list (string * CodeCoverageContentFilter))
  : result (option CoverageResult) * result (option CoverageResult) :=
  let first := ApplyFunc path_match fs coverage_filename source_filters in
  let second := ApplyFunc path_match fs coverage_filename source_filters in
  (first, second).

(* ===================================================================== *)
(** ** The filter policy, in the words of the specification *)
(* ===================================================================== *)

Module Policy.

(** The include globs of a filter; an absent list is an empty set. *)
Definition include_globs (filter : CodeCoverageContentFilter) : list string :=
  match includes filter with
  | Some globs => globs
  | None => []
  end.

(** The exclude globs of a filter. *)
Definition exclude_globs (filter : CodeCoverageContentFilter) : list string :=
  match excludes filter with
  | Some globs => globs
  | None => []
  end.

Definition any_glob_matches (globs : list string) (identifier : string) : bool :=
  existsb (fun glob => ItemMatcher.Matches glob identifier) globs.

(** Reject if any exclude glob matches; otherwise accept if the include set
    is empty or any include glob matches; otherwise reject. *)
Definition accepts (filter : CodeCoverageContentFilter) (identifier : string)
  : bool :=
  if any_glob_matches (exclude_globs filter) identifier then false
  else if (negb (Py.truthy (include_globs filter))
           || any_glob_matches (include_globs filter) identifier)%bool
  then true
  else false.

End Policy.

(* ===================================================================== *)
(** ** Concrete inputs *)
(* ===================================================================== *)

Module Examples.

Fixpoint ends_with (suffix s : string) : bool :=
  (String.eqb suffix s
   || match s with
      | EmptyString => false
      | String _ s' => ends_with suffix s'
      end)%bool.

(** A path matcher to run the code on concrete inputs: ["*"] followed by a
    suffix matches the names that end in the suffix, any other glob matches
    the name equal to it. *)
Definition suffix_match (filename glob : string) : bool :=
  match glob with
  | String "*"%char rest => ends_with rest filename
  | _ => String.eqb glob filename
  end.

Definition method_line (filename name : string) (c u : Z) : ReportRecord :=
  {| file := Some {| file_name := Some filename;
                     file_total_covered := None;
                     file_total_uncovered := None |};
     method := Some {| method_name := Some name;
                       method_total_covered := Some c;
                       method_total_uncovered := Some u |} |}.

Definition file_line (filename : string) (c u : Z) : ReportRecord :=
  {| file := Some {| file_name := Some filename;
                     file_total_covered := Some c;
                     file_total_uncovered := Some u |};
     method := None |}.

(** A file system with one report at ["coverage.ade"]. *)
Definition one_report (lines : list ReportRecord) : filesystem :=
  fun path => if String.eqb path "coverage.ade" then Some lines else None.

Definition match_all_filter : CodeCoverageContentFilter :=
  {| includes := Some ["*"]; excludes := None |}.

Definition pkg_filter : CodeCoverageContentFilter :=
  {| includes := Some ["pkg::*"]; excludes := Some ["pkg::internal::*"] |}.

Definition accept_everything : CodeCoverageContentFilter :=
  {| includes := None; excludes := None |}.

Definition only_internal : CodeCoverageContentFilter :=
  {| includes := Some ["pkg::internal::*"]; excludes := None |}.

(** A match-all glob next to a filtered one. *)
Definition filters_both : list (string * CodeCoverageContentFilter) :=
  [("*", match_all_filter); ("*.cpp", pkg_filter)].

(** A file-level total of (100, 5) and filtered methods summing to (40, 2). *)
Definition report_precedence : list ReportRecord :=
  [ file_line "widget.cpp" 100 5;
    method_line "widget.cpp" "pkg::foo::bar" 30 1;
    method_line "widget.cpp" "pkg::internal::x" 7 3;
    method_line "widget.cpp" "pkg::foo::baz" 10 1 ].

(** Two globs match ["widget.cpp"]; the first filter accepts every method,
    the second only those under [pkg::internal]. *)
Definition filters_disagree : list (string * CodeCoverageContentFilter) :=
  [("*.cpp", accept_everything); ("widget.cpp", only_internal)].

Definition report_one_method : list ReportRecord :=
  [ method_line "widget.cpp" "pkg::foo::bar" 30 1 ].

(** A line with both totals under ["file"] and a ["method"] object. *)
Definition both_shapes : ReportRecord :=
  {| file := Some {| file_name := Some "widget.cpp";
                     file_total_covered := Some 100%Z;
                     file_total_uncovered := Some 5%Z |};
     method := Some {| method_name := Some "pkg::foo::bar";
                       method_total_covered := Some 3%Z;
                       method_total_uncovered := Some 1%Z |} |}.

(** The same line without the totals under ["file"]. *)
Definition method_shape_only : ReportRecord :=
  method_line "widget.cpp" "pkg::foo::bar" 3 1.

Definition filters_cpp : list (string * CodeCoverageContentFilter) :=
  [("*.cpp", pkg_filter)].

(** A method-level line without its two totals. *)
Definition method_without_totals (filename name : string) : ReportRecord :=
  {| file := Some {| file_name := Some filename;
                     file_total_covered := None;
                     file_total_uncovered := None |};
     method := Some {| method_name := Some name;
                       method_total_covered := None;
                       method_total_uncovered := None |} |}.

(** A complete line that the filter accepts, then a line that lacks its
    totals and that the filter rejects. *)
Definition report_missing_unread : list ReportRecord :=
  [ method_line "widget.cpp" "pkg::foo::bar" 30 1;
    method_without_totals "widget.cpp" "pkg::internal::x" ].

(** The same lines, the incomplete one under a name the filter accepts. *)
Definition report_missing_read : list ReportRecord :=
  [ method_line "widget.cpp" "pkg::foo::bar" 30 1;
    method_without_totals "widget.cpp" "pkg::foo::baz" ].

(** Two file-level lines, both under the match-all glob. *)
Definition report_two_files : list ReportRecord :=
  [ file_line "widget.cpp" 100 5; file_line "gadget.cpp" 7 7 ].

(** A report whose file names match no configured glob. *)
Definition report_headers : list ReportRecord :=
  [ file_line "widget.h" 100 5; method_line "widget.h" "pkg::foo::bar" 30 1 ].

(** A stand-in for [ApplyFilters] that calls back once with fixed filters. *)
Definition apply_with (source_filters : list (string * CodeCoverageContentFilter))
    (binary_filename : string) (source_filenames : list (option string))
    (func : list (string * CodeCoverageContentFilter) ->
            result (option CoverageResult))
  : result (option CoverageResult) :=
  func source_filters.

Definition empty_context : CompilerContext :=
  {| inputs := None; input := None |}.

End Examples.

(* ===================================================================== *)
(** ** The matcher on the segments that remain *)
(* ===================================================================== *)

Module Segments.

(** What the inner loop of [Impl] leaves of the value segments: it drops
    segments up to the first one equal to [next_glob_part]. *)
Fixpoint drop_until (next_glob_part : string) (value_parts : list string)
  : list string :=
  match value_parts with
  | [] => []
  | value_part :: rest =>
      if negb (String.eqb value_part next_glob_part)
      then drop_until next_glob_part rest
      else value_parts
  end.

(** The answer of [Impl] as a function of the glob segments and the value
    segments that its two cursors have not passed yet
    ([ItemMatcher.while_loop] computes it with indices). *)
Fixpoint matches_from (glob_parts value_parts : list string) : bool :=
  match glob_parts with
  | [] =>
      match value_parts with
      | [] => true
      | _ :: _ => false
      end
  | glob_part :: glob_rest =>
      match value_parts with
      | [] => false
      | value_part :: value_rest =>
          if String.eqb glob_part "*{1}" then
            matches_from glob_rest value_rest
          else if String.eqb glob_part "*" then
            match glob_rest with
            | [] => true
            | next_glob_part :: _ =>
                matches_from glob_rest (drop_until next_glob_part value_parts)
            end
          else if negb (String.eqb glob_part value_part) then false
          else matches_from glob_rest value_rest
      end
  end.

(** A glob segment that is not the wildcard ["*"]. *)
Definition no_star (glob_part : string) : Prop := glob_part <> "*".

(** A glob segment that is neither wildcard. *)
Definition literal (glob_part : string) : Prop :=
  glob_part <> "*" /\ glob_part <> "*{1}".

(** A glob segment and a value segment agree when the glob segment is
    ["*{1}"] or is the value segment itself. *)
Definition agree (glob_part value_part : string) : Prop :=
  glob_part = "*{1}" \/ glob_part = value_part.

End Segments.

(* ===================================================================== *)
(** ** Counts of a report *)
(* ===================================================================== *)

Module Counts.

Definition nonneg (o : option Z) : Prop :=
  match o with
  | Some z => (0 <= z)%Z
  | None => True
  end.

(** Every count that a record carries is a natural number. *)
Definition record_nonneg (data : ReportRecord) : Prop :=
  nonneg (file_total_covered (get_file data))
  /\ nonneg (file_total_uncovered (get_file data))
  /\ match method data with
     | Some md =>
         nonneg (method_total_covered md)
         /\ nonneg (method_total_uncovered md)
     | None => True
     end.

End Counts.

(* ===================================================================== *)
(** ** File names: extensions and suffixes *)
(* ===================================================================== *)

Module Names.

(** [s.rfind(c)] for a one-character [c]: the highest index of [c] in [s],
    [None] where Python returns [-1]. *)
Fixpoint rfind (c : ascii) (s : string) : option nat :=
  match s with
  | EmptyString => None
  | String a s' =>
      match rfind c s' with
      | Some i => Some (S i)
      | None => if Ascii.eqb a c then Some 0 else None
      end
  end.

(** [s.endswith(suffix)]. *)
Fixpoint endswith (s suffix : string) : bool :=
  (String.eqb s suffix
   || match s with
      | EmptyString => false
      | String _ s' => endswith s' suffix
      end)%bool.

(** [sub in s] on strings. *)
Fixpoint contains (sub s : string) : bool :=
  (String.prefix sub s
   || match s with
      | EmptyString => false
      | String _ s' => contains sub s'
      end)%bool.

(** The string has no character other than ['.']. *)
Fixpoint all_dots (s : string) : bool :=
  match s with
  | EmptyString => true
  | String a s' => (Ascii.eqb a "." && all_dots s')%bool
  end.

(** [os.path.splitext(filename)[1]] for a directory entry, which holds no
    path separator: the text from the last dot on, unless only dots stand
    before that dot (the loop that skips all leading dots), in which case
    the extension is empty. *)
Definition splitext_ext (filename : string) : string :=
  match rfind "." filename with
  | Some dotIndex =>
      if negb (all_dots (substring 0 dotIndex filename))
      then substring dotIndex (String.length filename - dotIndex) filename
      else ""
  | None => ""
  end.

(** [PurePath.suffix] as a function of the final component [name]:
    [i = name.rfind('.')], and [name[i:]] if [0 < i < len(name) - 1],
    else the empty string. *)
Definition suffix (name : string) : string :=
  match rfind "." name with
  | Some i =>
      if ((0 <? i)%nat && (i <? String.length name - 1)%nat)%bool
      then substring i (String.length name - i) name
      else ""
  | None => ""
  end.

(** [PurePath.stem] as a function of the final component: [name[:i]] under
    the same condition, else [name]. *)
Definition stem (name : string) : string :=
  match rfind "." name with
  | Some i =>
      if ((0 <? i)%nat && (i <? String.length name - 1)%nat)%bool
      then substring 0 i name
      else name
  | None => name
  end.

End Names.

(* ===================================================================== *)
(** ** StartCoverage and StopCoverage: the intermediate files *)
(* ===================================================================== *)

Module Lifecycle.

(** The test [os.path.splitext(filename)[1] == ".gcda"] of both phases. *)
Definition is_gcda (filename : string) : bool :=
  String.eqb (Names.splitext_ext filename) ".gcda".

(** [s.add(x)] on a set kept as a list without repetition. *)
Definition set_add (x : string) (s : list string) : list string :=
  if existsb (String.eqb x) s then s else s ++ [x].

(** The inner loop of "Detecting .gcda dirs": the first [.gcda] name adds
    [root] and breaks. *)
Fixpoint scan_filenames (root : string) (filenames : list string)
    (gcda_dirs : list string) : list string :=
  match filenames with
  | [] => gcda_dirs
  | filename :: rest =>
      if is_gcda filename
      then set_add root gcda_dirs
      else scan_filenames root rest gcda_dirs
  end.

(** The set [gcda_dirs] of [StopCoverage]; [parent] is
    [coverage_filename.parent] and [walk] lists the [(root, filenames)] that
    [EnumSource(coverage_filename.parent)] yields. *)
Definition gcda_dirs (parent : string) (walk : list (string * list string))
  : list string :=
  fold_left (fun dirs item => scan_filenames (fst item) (snd item) dirs)
            walk (set_add parent []).

(** The files that the loop of [StartCoverage] unlinks when no [unlink]
    raises, as pairs of a root and a name in the order of the listing;
    [found] ends as their number. *)
Fixpoint stale_files (walk : list (string * list string))
  : list (string * string) :=
  match walk with
  | [] => []
  | (root, filenames) :: rest =>
      map (fun filename => (root, filename)) (filter is_gcda filenames)
      ++ stale_files rest
  end.

End Lifecycle.

(* ===================================================================== *)
(** ** Setup_custom.GetConfigurations *)
(* ===================================================================== *)

Module Setup.

(** The four positional arguments of a [Configuration.Dependency(...)]
    call; the identifier is kept as its text. *)
Record Dependency : Type := {
  dependency_id : string;
  dependency_name : string;
  dependency_configuration : string;
  dependency_uri : string
}.

(** The two positional arguments of a [Configuration.Configuration(...)]
    call. *)
Record Configuration : Type := {
  description : string;
  dependencies : list Dependency
}.

(** [d[k] = v] on a dictionary kept as the list of its items. *)
Fixpoint dict_set {V : Type} (d : list (string * V)) (k : string) (v : V)
  : list (string * V) :=
  match d with
  | [] => [(k, v)]
  | (k', v') :: rest =>
      if String.eqb k' k then (k, v) :: rest else (k', v') :: dict_set rest k v
  end.

Definition llvm_dependency (configuration : string) : Dependency :=
  {| dependency_id := "6b2e7017-3364-4722-941f-199ade541e41";
     dependency_name := "Common_LLVM";
     dependency_configuration := configuration;
     dependency_uri := "https://github.com/davidbrownell/v4-Common_LLVM.git" |}.

Definition cpp_development_dependency (architecture : string) : Dependency :=
  {| dependency_id := "d0ea9e4a-341b-409f-8bce-d1ea0efc202e";
     dependency_name := "Common_cpp_Development";
     dependency_configuration := architecture;
     dependency_uri :=
       "https://github.com/davidbrownell/v4-Common_cpp_Development.git" |}.

(** The body of [for architecture in architectures]. *)
Definition add_architecture (family_name llvm_version : string)
    (configurations : list (string * Configuration)) (architecture : string)
  : list (string * Configuration) :=
  if String.eqb family_name "Windows" then
    let configurations :=
      dict_set configurations
        (llvm_version ++ "-mingw-" ++ architecture)%string
        {| description :=
             ("Uses Clang and LLVM 'v" ++ llvm_version
              ++ "' (with mingw) targeting '" ++ architecture ++ "'.")%string;
           dependencies :=
             [ llvm_dependency
                 (llvm_version ++ "-mingw-" ++ architecture)%string;
               cpp_development_dependency architecture ] |} in
    fold_left
      (fun configurations msvc_version =>
         dict_set configurations
           (llvm_version ++ "-msvc-" ++ msvc_version ++ "-"
            ++ architecture)%string
           {| description :=
                ("Uses Clang and LLVM 'v" ++ llvm_version
                 ++ "' (with Microsoft Visual Studio 'v" ++ msvc_version
                 ++ "') targeting '" ++ architecture ++ "'.")%string;
              dependencies :=
                [ llvm_dependency
                    (llvm_version ++ "-msvc-" ++ msvc_version ++ "-"
                     ++ architecture)%string;
                  cpp_development_dependency architecture ] |})
      ["17.4"] configurations
  else
    dict_set configurations
      (llvm_version ++ "-" ++ architecture)%string
      {| description :=
           ("Uses Clang and and LLVM 'v" ++ llvm_version
            ++ "' (without any external dependencies) targeting '"
            ++ architecture ++ "'.")%string;
         dependencies :=
           [ llvm_dependency (llvm_version ++ "-" ++ architecture)%string;
             cpp_development_dependency architecture ] |}.

(** [GetConfigurations()]; the two arguments are [CurrentShell.family_name]
    and [CurrentShell.current_architecture]. *)
Definition GetConfigurations (family_name current_architecture : string)
  : list (string * Configuration) :=
  let architectures :=
    if String.eqb family_name "Windows"
    then ["x64"]
    else [current_architecture] in
  fold_left
    (fun configurations llvm_version =>
       fold_left (add_architecture family_name llvm_version)
                 architectures configurations)
    ["15.0.2"] [].

End Setup.

(* ===================================================================== *)
(** ** Activate_custom.GetCustomActions *)
(* ===================================================================== *)

Module Activate.

(** The commands the activation returns: the two kinds it builds itself,
    and the commands that [CreateRegistrationCommands] builds. *)
Inductive Command : Type :=
| Set_ (name value : string)
| Augment (name : string) (values : list string)
| Registration (text : string).

(** The predicate passed to [CreateRegistrationCommands], on the final
    component of [fullpath]:
    [fullpath.suffix == ".py" and any(fullpath.stem.endswith(name_suffix)
    for name_suffix in name_suffixes)]. *)
Definition is_plugin_file (name_suffixes : list string) (name : string)
  : bool :=
  (String.eqb (Names.suffix name) ".py"
   && Py.any (fun name_suffix => Names.endswith (Names.stem name) name_suffix)
             name_suffixes)%bool.

(** [assert x] on a boolean. *)
Definition assert_true (b : bool) : result unit :=
  if b then ret tt else raise AssertionError.

(** [assert configuration]: neither [None] nor the empty string. *)
Definition assert_configuration (configuration : option string)
  : result string :=
  match configuration with
  | Some EmptyString => raise AssertionError
  | Some text => ret text
  | None => raise AssertionError
  end.

(** [GetCustomActions].  [this_root_is_dir] and [scripts_dir_is_dir] are
    what the two [is_dir()] calls answer, [family_name] is
    [CurrentShell.family_name], and [registration] is what the one call of
    [CreateRegistrationCommands] returns. *)
Definition GetCustomActions (this_root_is_dir scripts_dir_is_dir : bool)
    (family_name : string) (configuration : option string)
    (registration : list Command) : result (list Command) :=
  _ <- assert_true this_root_is_dir ;;
  let commands := [] in
  configuration <- assert_configuration configuration ;;
  let commands :=
    if String.eqb family_name "Windows" then
      if Names.contains "msvc" configuration then
        commands ++ [ Set_ "DEVELOPMENT_ENVIRONMENT_CPP_COMPILER_NAME" "clang-cl";
                      Set_ "CC" "clang-cl";
                      Set_ "CXX" "clang-cl" ]
      else
        commands ++ [ Set_ "DEVELOPMENT_ENVIRONMENT_CPP_COMPILER_NAME" "clang" ]
    else commands in
  _ <- assert_true scripts_dir_is_dir ;;
  let commands := commands ++ registration in
  let commands :=
    commands ++ [ Augment "DEVELOPMENT_ENVIRONMENT_TESTER_CONFIGURATIONS"
                    ["cmake-coverage_executor-Clang"] ] in
  ret commands.

End Activate.

(* ===================================================================== *)
(** ** The matcher terminates *)
(* ===================================================================== *)

Section MatcherTermination.

Import ItemMatcher.

(** The inner loop stops within [len(value_parts) - value_part_index + 1]
    tests of its condition, and only moves the cursor forward. *)
Lemma skip_until_total (value_parts : list string) (next_glob_part : string) :
  forall fuel value_part_index,
    length value_parts - value_part_index < fuel ->
    exists value_part_index',
      skip_until fuel value_parts next_glob_part value_part_index
      = Some value_part_index'
      /\ value_part_index <= value_part_index'.
Proof.
  induction fuel as [|fuel IH]; intros vi Hfuel; [lia|].
  cbn [skip_until].
  destruct (vi <? length value_parts)%nat eqn:Hlt; cbn [andb].
  - destruct (negb _).
    + apply Nat.ltb_lt in Hlt.
      destruct (IH (S vi)) as (vi' & Hrun & Hle); [lia|].
      exists vi'. split; [exact Hrun|lia].
    + exists vi. split; [reflexivity|lia].
  - exists vi. split; [reflexivity|lia].
Qed.

(** The outer loop stops within [len(glob_parts) - glob_part_index + 1]
    tests of its condition. *)
Lemma while_loop_total (glob_parts value_parts : list string) :
  forall fuel glob_part_index value_part_index,
    length glob_parts - glob_part_index < fuel ->
    exists e,
      while_loop fuel glob_parts value_parts glob_part_index value_part_index
      = Some e.
Proof.
  induction fuel as [|fuel IH]; intros gi vi Hfuel; [lia|].
  cbn [while_loop].
  destruct (gi <? length glob_parts)%nat eqn:Hg; cbn [andb];
    [|eexists; reflexivity].
  apply Nat.ltb_lt in Hg.
  destruct (vi <? length value_parts)%nat; [|eexists; reflexivity].
  cbv zeta.
  destruct (String.eqb (nth gi glob_parts "") "*{1}").
  { apply IH. lia. }
  destruct (String.eqb (nth gi glob_parts "") "*").
  { destruct (gi + 1 =? length glob_parts)%nat; [eexists; reflexivity|].
    destruct (skip_until_total value_parts (nth (gi + 1) glob_parts "")
                (S (length value_parts)) vi) as (vi' & Hskip & _); [lia|].
    rewrite Hskip. apply IH. lia. }
  destruct (negb _); [eexists; reflexivity|].
  apply IH. lia.
Qed.

Lemma run_total (glob_parts value_parts : list string) :
  exists e, run glob_parts value_parts = Some e.
Proof.
  unfold run. apply while_loop_total. lia.
Qed.

(** [Impl] always returns: the fuel of the embedding is enough. *)
Lemma Impl_total (glob_parts : list string) (value : string) :
  exists b, Impl glob_parts value = Some b.
Proof.
  unfold Impl.
  destruct (run_total glob_parts (Py.split value)) as [e He].
  rewrite He. eexists. reflexivity.
Qed.

(** A [return True] from inside the loop happens at a trailing ["*"], with
    a value segment still unread. *)
Lemma while_loop_ReturnTrue (glob_parts value_parts : list string) :
  forall fuel glob_part_index value_part_index gi vi,
    while_loop fuel glob_parts value_parts glob_part_index value_part_index
    = Some (ReturnTrue gi vi) ->
    gi + 1 = length glob_parts
    /\ nth gi glob_parts "" = "*"
    /\ vi < length value_parts.
Proof.
  induction fuel as [|fuel IH]; intros gi0 vi0 gi vi; [discriminate|].
  cbn [while_loop].
  destruct (gi0 <? length glob_parts)%nat; cbn [andb]; [|discriminate].
  destruct (vi0 <? length value_parts)%nat eqn:Hv; [|discriminate].
  cbv zeta.
  destruct (String.eqb (nth gi0 glob_parts "") "*{1}"); [apply IH|].
  destruct (String.eqb (nth gi0 glob_parts "") "*") eqn:Hstar.
  - destruct (gi0 + 1 =? length glob_parts)%nat eqn:Hlast.
    + intros [= <- <-].
      apply Nat.eqb_eq in Hlast. apply String.eqb_eq in Hstar.
      apply Nat.ltb_lt in Hv. auto.
    + destruct (skip_until _ _ _ _); [apply IH|discriminate].
  - destruct (negb _); [discriminate|apply IH].
Qed.

End MatcherTermination.

(* ===================================================================== *)
(** ** The glob matcher *)
(* ===================================================================== *)

Section MatcherProperties.

Import ItemMatcher.

(** The matcher is the value of the way its loop is left. *)
Lemma Matches_exit (pattern value : string) :
  exists e,
    run (Py.split pattern) (Py.split value) = Some e
    /\ Matches pattern value
       = exit_value (Py.split pattern) (Py.split value) e.
Proof.
  destruct (run_total (Py.split pattern) (Py.split value)) as [e He].
  exists e. split; [exact He|].
  unfold Matches, CreateItemMatcher, Impl. rewrite He. reflexivity.
Qed.

(** C6. The five matches the specification lists evaluate as it says, and a
    match succeeds only in two ways: the loop reaches a trailing ["*"] with
    a value segment still unread (the immediate prefix match), or it ends
    with both cursors past their last segment. *)
Theorem Matches_table_and_success_condition :
  Matches "a::*::c" "a::b::c" = true
  /\ Matches "a::*::c" "a::b::b::c" = true
  /\ Matches "a::*{1}::c" "a::b::b::c" = false
  /\ Matches "a::*" "a::b::c" = true
  /\ Matches "a::b" "a::c" = false
  /\ (forall pattern value,
        Matches pattern value = true <->
        (run (Py.split pattern) (Py.split value)
         = Some (LoopEnd (length (Py.split pattern)) (length (Py.split value)))
         \/ exists glob_part_index value_part_index,
              run (Py.split pattern) (Py.split value)
              = Some (ReturnTrue glob_part_index value_part_index)
              /\ glob_part_index + 1 = length (Py.split pattern)
              /\ nth glob_part_index (Py.split pattern) "" = "*"
              /\ value_part_index < length (Py.split value))).
Proof.
  repeat (split; [reflexivity|]).
  intros pattern value.
  destruct (Matches_exit pattern value) as (e & He & Hm).
  rewrite Hm, He. split.
  - destruct e as [gi vi|gi vi]; cbn [exit_value]; intros H.
    + right. exists gi, vi. split; [reflexivity|].
      unfold run in He. eapply while_loop_ReturnTrue. exact He.
    + left. apply andb_prop in H. destruct H as [Hg Hv].
      apply Nat.eqb_eq in Hg. apply Nat.eqb_eq in Hv. subst. reflexivity.
  - intros [H|(gi & vi & H & _)]; injection H as ->; cbn [exit_value].
    + rewrite !Nat.eqb_refl. reflexivity.
    + reflexivity.
Qed.

(** The success condition at ["a::*::c"] against ["a::b::b::c"], where the
    loop ends with both cursors past the last segment. *)
Lemma Matches_success_condition_witness :
  Matches "a::*::c" "a::b::b::c" = true
  /\ run (Py.split "a::*::c") (Py.split "a::b::b::c") = Some (LoopEnd 3 4).
Proof.
  split.
  - apply (proj1 (proj2 Matches_table_and_success_condition)).
  - reflexivity.
Defined.

End MatcherProperties.

(* ===================================================================== *)
(** ** The source filter *)
(* ===================================================================== *)

Section FilterProperties.

Import SourceMatcher.

Lemma any_over_matchers (globs : list string) (value : string) :
  Py.any (fun f : string -> bool => f value)
         (map ItemMatcher.CreateItemMatcher globs)
  = Policy.any_glob_matches globs value.
Proof.
  unfold Py.any, Policy.any_glob_matches, ItemMatcher.Matches.
  induction globs as [|glob globs IH]; cbn [map existsb].
  - reflexivity.
  - rewrite IH. reflexivity.
Qed.

Lemma or_empty_is_list {A : Type} (o : option (list A)) :
  Py.or_empty o = match o with Some l => l | None => [] end.
Proof.
  destruct o as [[|x l]|]; reflexivity.
Qed.

Lemma truthy_map {A B : Type} (f : A -> B) (l : list A) :
  Py.truthy (map f l) = Py.truthy l.
Proof.
  destruct l; reflexivity.
Qed.

(** The closure of [CreateSourceMatcher] computes the policy. *)
Lemma CreateSourceMatcher_policy (filter : CodeCoverageContentFilter)
    (value : string) :
  CreateSourceMatcher filter value = Policy.accepts filter value.
Proof.
  unfold CreateSourceMatcher, Policy.accepts.
  rewrite !any_over_matchers, !truthy_map, !or_empty_is_list.
  fold (Policy.include_globs filter). fold (Policy.exclude_globs filter).
  destruct (Policy.exclude_globs filter) as [|e es].
  - cbn. destruct (Policy.include_globs filter) as [|i il]; cbn.
    + reflexivity.
    + destruct (_ || _)%bool; reflexivity.
  - cbn [Py.truthy andb].
    destruct (Policy.any_glob_matches (e :: es) value); [reflexivity|].
    destruct (Policy.include_globs filter) as [|i il]; cbn [Py.truthy andb negb orb].
    + reflexivity.
    + destruct (Policy.any_glob_matches (i :: il) value); reflexivity.
Qed.

(** C7. A filter rejects an identifier that some exclude glob matches;
    otherwise it accepts it when the include set is empty or some include
    glob matches, and rejects it otherwise.  The filter with includes
    ["pkg::*"] and excludes ["pkg::internal::*"] accepts ["pkg::foo::bar"]
    and rejects ["pkg::internal::x"]. *)
Theorem Accepts_policy :
  (forall filter identifier,
     Accepts filter identifier = Policy.accepts filter identifier)
  /\ (forall filter identifier,
        Policy.any_glob_matches (Policy.exclude_globs filter) identifier = true ->
        Accepts filter identifier = false)
  /\ (forall filter identifier,
        Policy.any_glob_matches (Policy.exclude_globs filter) identifier = false ->
        Accepts filter identifier
        = match Policy.include_globs filter with
          | [] => true
          | _ :: _ =>
              Policy.any_glob_matches (Policy.include_globs filter) identifier
          end)
  /\ Accepts {| includes := Some ["pkg::*"];
                excludes := Some ["pkg::internal::*"] |} "pkg::foo::bar" = true
  /\ Accepts {| includes := Some ["pkg::*"];
                excludes := Some ["pkg::internal::*"] |} "pkg::internal::x" = false.
Proof.
  split; [|split; [|split; [|split]]].
  - intros filter identifier. apply CreateSourceMatcher_policy.
  - intros filter identifier Hex. unfold Accepts.
    rewrite CreateSourceMatcher_policy. unfold Policy.accepts.
    rewrite Hex. reflexivity.
  - intros filter identifier Hex. unfold Accepts.
    rewrite CreateSourceMatcher_policy. unfold Policy.accepts.
    rewrite Hex.
    destruct (Policy.include_globs filter) as [|i il]; cbn [Py.truthy negb orb].
    + reflexivity.
    + destruct (Policy.any_glob_matches (i :: il) identifier); reflexivity.
  - reflexivity.
  - reflexivity.
Qed.

(** The policy at the filter of the specification: the exclude glob matches
    ["pkg::internal::x"], so the filter rejects it. *)
Lemma Accepts_policy_witness :
  Policy.any_glob_matches
    (Policy.exclude_globs Examples.pkg_filter) "pkg::internal::x" = true
  /\ Accepts Examples.pkg_filter "pkg::internal::x" = false.
Proof.
  split.
  - reflexivity.
  - apply (proj1 (proj2 Accepts_policy)). reflexivity.
Defined.

End FilterProperties.

(* ===================================================================== *)
(** ** The loop of the aggregator, record by record *)
(* ===================================================================== *)

Section LoopProperties.

Variable path_match : string -> string -> bool.
Variable source_filters : list (string * CodeCoverageContentFilter).

Local Abbreviation globs := (fst (create_matchers source_filters)).
Local Abbreviation matchers := (snd (create_matchers source_filters)).

Lemma add_matcher_fold (l : list (string * CodeCoverageContentFilter)) :
  forall gs ms,
    fold_left add_matcher l (gs, ms)
    = (gs ++ map fst (filter (fun kv => is_match_all (snd kv)) l),
       ms ++ map (fun kv => (fst kv, SourceMatcher.CreateSourceMatcher (snd kv)))
                 (filter (fun kv => negb (is_match_all (snd kv))) l)).
Proof.
  induction l as [|[k v] l IH]; intros gs ms; cbn [fold_left filter map].
  - rewrite !app_nil_r. reflexivity.
  - cbn [add_matcher snd fst]. destruct (is_match_all v); cbn [negb].
    + rewrite IH. cbn [map fst]. rewrite <- app_assoc. reflexivity.
    + rewrite IH. cbn [map fst snd]. rewrite <- app_assoc. reflexivity.
Qed.

(** The match-all globs are the keys of the match-all filters, and the
    matchers are built from the other filters only. *)
Lemma create_matchers_spec (l : list (string * CodeCoverageContentFilter)) :
  create_matchers l
  = (map fst (filter (fun kv => is_match_all (snd kv)) l),
     map (fun kv => (fst kv, SourceMatcher.CreateSourceMatcher (snd kv)))
         (filter (fun kv => negb (is_match_all (snd kv))) l)).
Proof.
  unfold create_matchers. rewrite add_matcher_fold. reflexivity.
Qed.

Lemma any_match_all_glob (filename : string) :
  Py.any (fun g => path_match filename g) globs
  = matches_a_match_all_glob path_match source_filters filename.
Proof.
  unfold matches_a_match_all_glob, Py.any.
  rewrite create_matchers_spec. cbn [fst].
  induction source_filters as [|[k v] l IH]; cbn [filter map existsb fst snd].
  - reflexivity.
  - destruct (is_match_all v); cbn [map existsb fst andb].
    + rewrite IH. reflexivity.
    + exact IH.
Qed.

Lemma match_funcs_of_matched (filename : string) :
  map snd (filter (fun sm => path_match filename (fst sm)) matchers)
  = map (fun kv => SourceMatcher.CreateSourceMatcher (snd kv))
        (matched_filters path_match source_filters filename).
Proof.
  unfold matched_filters.
  rewrite create_matchers_spec. cbn [snd].
  induction source_filters as [|[k v] l IH]; cbn [filter map fst snd].
  - reflexivity.
  - destruct (is_match_all v); cbn [negb andb map filter fst snd].
    + exact IH.
    + destruct (path_match filename k); cbn [map snd].
      * rewrite IH. reflexivity.
      * exact IH.
Qed.

Lemma all_over_matchers {A : Type} (f : A -> string -> bool)
    (l : list A) (value : string) :
  Py.all (fun g : string -> bool => g value) (map f l)
  = forallb (fun a => f a value) l.
Proof.
  unfold Py.all. induction l as [|a l IH]; cbn [map forallb].
  - reflexivity.
  - rewrite IH. reflexivity.
Qed.

(** The test [match_funcs and all(...)] of the loop body. *)
Lemma accept_test (filename name : string) :
  (Py.truthy (map snd (filter (fun sm => path_match filename (fst sm)) matchers))
   && Py.all (fun match_func : string -> bool => match_func name)
        (map snd (filter (fun sm => path_match filename (fst sm)) matchers)))%bool
  = every_matched_accepts path_match source_filters filename name.
Proof.
  rewrite match_funcs_of_matched, truthy_map, all_over_matchers.
  reflexivity.
Qed.

(** The loop body raises on a record that is not [record_ok], and otherwise
    moves to [after_record]. *)
Lemma loop_body_spec (st : loop_state) (data : ReportRecord) :
  loop_body path_match globs matchers st data
  = if record_ok path_match source_filters data
    then inr (after_record path_match source_filters st data)
    else inl AssertionError.
Proof.
  unfold loop_body, record_ok, after_record, contribution, file_offer,
    method_fields, has_file_totals.
  cbv zeta.
  destruct (file_name (get_file data)) as [filename|]; [|reflexivity].
  cbn [assert_not_None bind ret].
  destruct (file_total_covered (get_file data)) as [fc|];
    destruct (file_total_uncovered (get_file data)) as [fu|];
    cbn [is_None negb andb].
  1: { rewrite any_match_all_glob.
       destruct st as [[fr|] rs]; cbn [file_result result_sum is_None andb ret].
       - reflexivity.
       - destruct (matches_a_match_all_glob _ _ _); reflexivity. }
  all: destruct (method data) as [md|]; [|reflexivity].
  all: cbn [assert_not_None bind ret raise].
  all: destruct (method_name md) as [name|]; [|reflexivity].
  all: cbn [assert_not_None bind ret raise]; rewrite accept_test.
  all: destruct (method_total_covered md) as [c|];
    destruct (method_total_uncovered md) as [u|];
    destruct (every_matched_accepts path_match source_filters filename name);
    destruct st as [[fr|] [[rc ru]|]]; reflexivity.
Qed.

(** A report whose records are all [record_ok] is read to its end. *)
Lemma for_each_ok (lines : list ReportRecord) :
  forall st,
    forallb (record_ok path_match source_filters) lines = true ->
    for_each (loop_body path_match globs matchers) lines st
    = inr (fold_left (after_record path_match source_filters) lines st).
Proof.
  induction lines as [|data lines IH]; intros st Hok; cbn [for_each fold_left].
  - reflexivity.
  - cbn [forallb] in Hok. apply andb_prop in Hok. destruct Hok as [Hd Hl].
    rewrite loop_body_spec, Hd. cbn [bind]. apply IH. exact Hl.
Qed.

(** A record that is not [record_ok] makes the whole loop raise, wherever
    in the report it stands. *)
Lemma for_each_raises (lines : list ReportRecord) :
  forall st,
    forallb (record_ok path_match source_filters) lines = false ->
    for_each (loop_body path_match globs matchers) lines st
    = inl AssertionError.
Proof.
  induction lines as [|data lines IH]; intros st Hbad; cbn [for_each].
  - discriminate.
  - cbn [forallb] in Hbad. rewrite loop_body_spec.
    destruct (record_ok path_match source_filters data); cbn [bind].
    + apply IH. exact Hbad.
    + reflexivity.
Qed.

(** The offer kept after a run is the one kept before it, or else the
    first of the report; the sum is the sum before it plus the
    contributions, in order. *)
Lemma fold_after_record (lines : list ReportRecord) :
  forall st,
    fold_left (after_record path_match source_filters) lines st
    = {| file_result :=
           match file_result st with
           | Some fr => Some fr
           | None => first_file_offer path_match source_filters lines
           end;
         result_sum :=
           fold_left add_counts
             (contributions path_match source_filters lines) (result_sum st) |}.
Proof.
  induction lines as [|data lines IH]; intros [fr rs];
    cbn [fold_left first_file_offer contributions file_result result_sum].
  - destruct fr; reflexivity.
  - rewrite IH. unfold after_record. cbn [file_result result_sum].
    destruct (contribution path_match source_filters data) as [cu|];
      destruct fr as [fr|];
      destruct (file_offer path_match source_filters data);
      reflexivity.
Qed.

Lemma select_after_run (lines : list ReportRecord) :
  select_result
    (fold_left (after_record path_match source_filters) lines initial_state)
  = selected path_match source_filters lines.
Proof.
  rewrite fold_after_record. unfold select_result, selected, method_sum.
  cbn [initial_state file_result result_sum].
  destruct (fold_left add_counts _ None); [reflexivity|].
  destruct (first_file_offer _ _ _); reflexivity.
Qed.

(** [ApplyFunc] on a report it can open: the result the specification
    selects when every record is [record_ok], an [AssertionError]
    otherwise. *)
Lemma ApplyFunc_spec (fs : filesystem) (coverage_filename : string)
    (lines : list ReportRecord) :
  fs coverage_filename = Some lines ->
  ApplyFunc path_match fs coverage_filename source_filters
  = if forallb (record_ok path_match source_filters) lines
    then inr (selected path_match source_filters lines)
    else inl AssertionError.
Proof.
  intros Hopen. unfold ApplyFunc, open_readlines.
  rewrite (surjective_pairing (create_matchers source_filters)).
  rewrite Hopen. cbn [bind ret].
  destruct (forallb (record_ok path_match source_filters) lines) eqn:Hok.
  - rewrite for_each_ok by exact Hok. cbn [bind].
    rewrite select_after_run. reflexivity.
  - rewrite for_each_raises by exact Hok. reflexivity.
Qed.

Lemma ApplyFunc_no_file (fs : filesystem) (coverage_filename : string) :
  fs coverage_filename = None ->
  ApplyFunc path_match fs coverage_filename source_filters
  = inl FileNotFoundError.
Proof.
  intros Hopen. unfold ApplyFunc, open_readlines.
  rewrite (surjective_pairing (create_matchers source_filters)).
  rewrite Hopen. reflexivity.
Qed.

End LoopProperties.

(* ===================================================================== *)
(** ** Method-level records: which counts are added *)
(* ===================================================================== *)

Section MethodRecords.

Variable path_match : string -> string -> bool.

(** C1, as the code has it.  A method-level record with all of its fields
    adds its counts to the running total exactly when at least one
    configured glob that is not match-all matches its file name and every
    filter so matched accepts the method name; otherwise the state is left
    as it was. *)
Theorem method_counts_added_iff_every_matched_accepts
    (source_filters : list (string * CodeCoverageContentFilter))
    (st : loop_state) (data : ReportRecord)
    (filename : string) (md : MethodData) (name : string) (c u : Z) :
  has_file_totals data = false ->
  file_name (get_file data) = Some filename ->
  method data = Some md ->
  method_name md = Some name ->
  method_total_covered md = Some c ->
  method_total_uncovered md = Some u ->
  loop_body path_match
    (fst (create_matchers source_filters))
    (snd (create_matchers source_filters)) st data
  = inr (if every_matched_accepts path_match source_filters filename name
         then {| file_result := file_result st;
                 result_sum := add_counts (result_sum st) (c, u) |}
         else st).
Proof.
  intros Hfile Hname Hmethod Hmname Hc Hu.
  rewrite loop_body_spec.
  unfold record_ok, after_record, contribution, file_offer, method_fields.
  rewrite Hfile, Hname, Hmethod, Hmname, Hc, Hu.
  unfold has_file_totals in Hfile.
  destruct (every_matched_accepts path_match source_filters filename name);
    cbn [is_None negb andb];
    destruct (file_total_covered (get_file data));
    destruct (file_total_uncovered (get_file data));
    try discriminate Hfile;
    destruct st as [[fr|] rs]; reflexivity.
Qed.

End MethodRecords.

(** The rule at a record whose name both matched filters accept. *)
Lemma method_counts_added_witness :
  loop_body Examples.suffix_match
    (fst (create_matchers Examples.filters_disagree))
    (snd (create_matchers Examples.filters_disagree))
    initial_state
    (Examples.method_line "widget.cpp" "pkg::internal::x" 7 3)
  = inr {| file_result := None; result_sum := Some (7, 3)%Z |}.
Proof.
  exact (method_counts_added_iff_every_matched_accepts
           Examples.suffix_match Examples.filters_disagree initial_state
           (Examples.method_line "widget.cpp" "pkg::internal::x" 7 3)
           "widget.cpp"
           {| method_name := Some "pkg::internal::x";
              method_total_covered := Some 7%Z;
              method_total_uncovered := Some 3%Z |}
           "pkg::internal::x" 7%Z 3%Z
           eq_refl eq_refl eq_refl eq_refl eq_refl eq_refl).
Defined.

(** C1, as the claim states it, fails: one of the two filters matched by
    ["widget.cpp"] accepts ["pkg::foo::bar"], and the counts of that method
    are not added (the report yields no result). *)
Lemma some_filter_accepts_but_counts_not_added :
  some_matched_accepts Examples.suffix_match Examples.filters_disagree
    "widget.cpp" "pkg::foo::bar" = true
  /\ every_matched_accepts Examples.suffix_match Examples.filters_disagree
       "widget.cpp" "pkg::foo::bar" = false
  /\ ApplyFunc Examples.suffix_match
       (Examples.one_report Examples.report_one_method) "coverage.ade"
       Examples.filters_disagree
     = inr None.
Proof.
  repeat split; reflexivity.
Qed.

(* ===================================================================== *)
(** ** File-level and method-level records *)
(* ===================================================================== *)

Section Classification.

Variable path_match : string -> string -> bool.
Variable source_filters : list (string * CodeCoverageContentFilter).

(** C2, as the code has it.  A record with a file name is read as a
    file-level record exactly when both totals sit directly under its
    ["file"] key, whether or not it also has a ["method"] key: it then
    never raises, never touches the method-level sum, and offers its totals
    as the fallback.  Any other record is read as a method-level record:
    its ["method"] object and name are required, and it never touches the
    fallback. *)
Theorem file_level_iff_totals_under_file
    (st : loop_state) (data : ReportRecord) (filename : string) :
  file_name (get_file data) = Some filename ->
  (has_file_totals data = true ->
   loop_body path_match
     (fst (create_matchers source_filters))
     (snd (create_matchers source_filters)) st data
   = inr {| file_result :=
              match file_result st with
              | Some fr => Some fr
              | None => file_offer path_match source_filters data
              end;
            result_sum := result_sum st |})
  /\ (has_file_totals data = false ->
      loop_body path_match
        (fst (create_matchers source_filters))
        (snd (create_matchers source_filters)) st data
      = match method data with
        | None => inl AssertionError
        | Some md =>
            match method_name md with
            | None => inl AssertionError
            | Some name =>
                if every_matched_accepts path_match source_filters filename name
                then
                  match method_total_covered md, method_total_uncovered md with
                  | Some c, Some u =>
                      inr {| file_result := file_result st;
                             result_sum := add_counts (result_sum st) (c, u) |}
                  | _, _ => inl AssertionError
                  end
                else inr st
            end
        end).
Proof.
  intros Hname. rewrite loop_body_spec.
  unfold record_ok, after_record, contribution, file_offer, method_fields.
  rewrite Hname. split; intros Htotals; rewrite Htotals.
  - reflexivity.
  - unfold has_file_totals in Htotals.
    destruct (method data) as [md|]; [|reflexivity].
    destruct (method_name md) as [name|]; [|reflexivity].
    destruct (method_total_covered md) as [c|];
      destruct (method_total_uncovered md) as [u|];
      destruct (every_matched_accepts path_match source_filters filename name);
      cbn [is_None negb andb];
      destruct (file_total_covered (get_file data));
      destruct (file_total_uncovered (get_file data));
      try discriminate Htotals;
      destruct st as [[fr|] rs]; reflexivity.
Qed.

End Classification.

(** The classification at a line that has both the totals under ["file"]
    and a ["method"] object: it is read as a file-level record. *)
Lemma file_level_witness :
  loop_body Examples.suffix_match
    (fst (create_matchers Examples.filters_both))
    (snd (create_matchers Examples.filters_both))
    initial_state Examples.both_shapes
  = inr {| file_result := Some {| covered := 100; uncovered := 5 |};
           result_sum := None |}.
Proof.
  exact (proj1 (file_level_iff_totals_under_file
                  Examples.suffix_match Examples.filters_both
                  initial_state Examples.both_shapes "widget.cpp" eq_refl)
               eq_refl).
Defined.

(** C2, as the claim states it, fails: a line with the totals under
    ["file"] and with a ["method"] key does not satisfy the claim's
    condition, yet it is skipped from the method-level sum; the same line
    without the totals under ["file"] adds its counts. *)
Lemma record_with_totals_and_method_is_skipped :
  is_None (method Examples.both_shapes) = false
  /\ has_file_totals Examples.both_shapes = true
  /\ ApplyFunc Examples.suffix_match
       (Examples.one_report [Examples.both_shapes]) "coverage.ade"
       Examples.filters_cpp
     = inr None
  /\ ApplyFunc Examples.suffix_match
       (Examples.one_report [Examples.method_shape_only]) "coverage.ade"
       Examples.filters_cpp
     = inr (Some {| covered := 3; uncovered := 1 |}).
Proof.
  repeat split; reflexivity.
Qed.

(* ===================================================================== *)
(** ** Missing fields *)
(* ===================================================================== *)

Section MissingFields.

Variable path_match : string -> string -> bool.
Variable source_filters : list (string * CodeCoverageContentFilter).

Lemma forallb_false {A : Type} (f : A -> bool) (l : list A) :
  forallb f l = false <-> exists x, In x l /\ f x = false.
Proof.
  induction l as [|a l IH]; cbn [forallb In].
  - split; [discriminate|]. intros (x & [] & _).
  - rewrite andb_false_iff, IH. split.
    + intros [Ha|(x & Hin & Hx)]; [exists a|exists x]; auto.
    + intros (x & [<-|Hin] & Hx); [left|right; exists x]; auto.
Qed.

(** The records the loop body raises on are those that lack a field it
    asserts. *)
Lemma record_ok_false (data : ReportRecord) :
  record_ok path_match source_filters data = false
  <-> lacks_field path_match source_filters data.
Proof.
  unfold record_ok. split.
  - destruct (file_name (get_file data)) as [filename|] eqn:Hname;
      [|intros _; apply lacks_filename; exact Hname].
    destruct (has_file_totals data) eqn:Htotals; [discriminate|].
    destruct (method data) as [md|] eqn:Hmethod;
      [|intros _; apply lacks_method; assumption].
    destruct (method_name md) as [name|] eqn:Hmname;
      [|intros _; eapply lacks_method_name; eassumption].
    destruct (every_matched_accepts path_match source_filters filename name)
      eqn:Haccept; [|discriminate].
    intros Hmissing.
    eapply lacks_method_total; try eassumption.
    destruct (method_total_covered md); [|left; reflexivity].
    destruct (method_total_uncovered md); [discriminate|right; reflexivity].
  - intros [Hname|Htotals Hmethod|md Htotals Hmethod Hmname
            |filename md name Htotals Hname Hmethod Hmname Haccept Hmissing].
    + rewrite Hname. reflexivity.
    + rewrite Htotals, Hmethod.
      destruct (file_name (get_file data)); reflexivity.
    + rewrite Htotals, Hmethod, Hmname.
      destruct (file_name (get_file data)); reflexivity.
    + rewrite Hname, Htotals, Hmethod, Hmname, Haccept.
      destruct Hmissing as [-> | ->]; cbn [is_None negb andb].
      * reflexivity.
      * apply andb_false_r.
Qed.

(** C3, as the code has it.  The extraction of a report that can be opened
    fails with an [AssertionError], returning no result, exactly when some
    record lacks a field the loop asserts: the file name, on any record;
    the method object or its name, on any record that has not both totals
    under ["file"], whatever the filters; the covered or the uncovered
    total of a method, when a glob matches the file name and every matched
    filter accepts the method name. *)
Theorem missing_field_is_fatal
    (fs : filesystem) (coverage_filename : string)
    (lines : list ReportRecord) :
  fs coverage_filename = Some lines ->
  ((exists data,
       In data lines /\ lacks_field path_match source_filters data)
   <-> ApplyFunc path_match fs coverage_filename source_filters
       = inl AssertionError).
Proof.
  intros Hopen. rewrite (ApplyFunc_spec _ _ _ _ _ Hopen).
  destruct (forallb (record_ok path_match source_filters) lines) eqn:Hok.
  - split; [|discriminate].
    intros (data & Hin & Hlacks).
    rewrite forallb_forall in Hok. specialize (Hok data Hin).
    apply record_ok_false in Hlacks. congruence.
  - split; [reflexivity|]. intros _.
    apply forallb_false in Hok. destruct Hok as (data & Hin & Hbad).
    exists data. split; [exact Hin|]. apply record_ok_false. exact Hbad.
Qed.

End MissingFields.

(** The rule at a report whose second line lacks its totals under a method
    name that the matched filter accepts: the extraction raises, and the
    counts of the first line are not returned. *)
Lemma missing_field_witness :
  ApplyFunc Examples.suffix_match
    (Examples.one_report Examples.report_missing_read) "coverage.ade"
    Examples.filters_cpp
  = inl AssertionError.
Proof.
  apply (proj1 (missing_field_is_fatal
                  Examples.suffix_match Examples.filters_cpp
                  (Examples.one_report Examples.report_missing_read)
                  "coverage.ade" Examples.report_missing_read eq_refl)).
  exists (Examples.method_without_totals "widget.cpp" "pkg::foo::baz").
  split.
  - right. left. reflexivity.
  - apply (lacks_method_total _ _ _ "widget.cpp"
             {| method_name := Some "pkg::foo::baz";
                method_total_covered := None;
                method_total_uncovered := None |}
             "pkg::foo::baz"); try reflexivity.
    left. reflexivity.
Defined.

(** C3, as the claim states it, fails: the second line of this report is a
    method-level record without [total_covered] and [total_uncovered], the
    matched filter rejects its name, and the extraction returns the counts
    of the first line instead of failing. *)
Lemma missing_totals_unread_when_rejected :
  method_total_covered
    {| method_name := Some "pkg::internal::x";
       method_total_covered := None;
       method_total_uncovered := None |} = None
  /\ In (Examples.method_without_totals "widget.cpp" "pkg::internal::x")
        Examples.report_missing_unread
  /\ ApplyFunc Examples.suffix_match
       (Examples.one_report Examples.report_missing_unread) "coverage.ade"
       Examples.filters_cpp
     = inr (Some {| covered := 30; uncovered := 1 |}).
Proof.
  split; [reflexivity|]. split; [|reflexivity].
  right. left. reflexivity.
Qed.

(* ===================================================================== *)
(** ** Result selection *)
(* ===================================================================== *)

Section Selection.

Variable path_match : string -> string -> bool.
Variable source_filters : list (string * CodeCoverageContentFilter).

Lemma fold_add_counts (l : list (Z * Z)) :
  forall a b,
    fold_left add_counts l (Some (a, b))
    = Some ((a + fold_right Z.add 0 (map fst l))%Z,
            (b + fold_right Z.add 0 (map snd l))%Z).
Proof.
  induction l as [|[c u] l IH]; intros a b; cbn [fold_left map fold_right].
  - rewrite !Z.add_0_r. reflexivity.
  - cbn [add_counts fst snd]. rewrite IH. f_equal. f_equal; lia.
Qed.

(** The method-level sum is absent when no record contributes, and is the
    componentwise sum of the contributions otherwise. *)
Lemma method_sum_spec (lines : list ReportRecord) :
  method_sum path_match source_filters lines
  = match contributions path_match source_filters lines with
    | [] => None
    | (_ :: _) as cs =>
        Some (fold_right Z.add 0%Z (map fst cs),
              fold_right Z.add 0%Z (map snd cs))
    end.
Proof.
  unfold method_sum.
  destruct (contributions path_match source_filters lines) as [|[c u] cs].
  - reflexivity.
  - cbn [fold_left add_counts fst snd]. rewrite fold_add_counts.
    reflexivity.
Qed.

End Selection.

(** C4. On a report that is read to its end, the aggregator returns the sum
    of the method-level counts when some record contributed, else the
    file-level fallback when one was captured, else no result; this is the
    selection of the last lines of [ApplyFunc] on the state of the loop.
    The report with a file-level total (100, 5) under a match-all glob and
    filtered methods summing to (40, 2) yields (40, 2). *)
Theorem result_selection :
  (forall path_match source_filters fs coverage_filename lines,
     fs coverage_filename = Some lines ->
     forallb (record_ok path_match source_filters) lines = true ->
     ApplyFunc path_match fs coverage_filename source_filters
     = inr match contributions path_match source_filters lines with
           | (_ :: _) as cs =>
               Some {| covered := fold_right Z.add 0%Z (map fst cs);
                       uncovered := fold_right Z.add 0%Z (map snd cs) |}
           | [] => first_file_offer path_match source_filters lines
           end)
  /\ (forall st,
        select_result st
        = match result_sum st, file_result st with
          | Some (c, u), _ => Some {| covered := c; uncovered := u |}
          | None, Some fr => Some fr
          | None, None => None
          end)
  /\ first_file_offer Examples.suffix_match Examples.filters_both
       Examples.report_precedence
     = Some {| covered := 100; uncovered := 5 |}
  /\ contributions Examples.suffix_match Examples.filters_both
       Examples.report_precedence
     = [(30, 1); (10, 1)]%Z
  /\ ApplyFunc Examples.suffix_match
       (Examples.one_report Examples.report_precedence) "coverage.ade"
       Examples.filters_both
     = inr (Some {| covered := 40; uncovered := 2 |}).
Proof.
  split; [|split; [|repeat split; reflexivity]].
  - intros path_match source_filters fs coverage_filename lines Hopen Hok.
    rewrite (ApplyFunc_spec _ _ _ _ _ Hopen), Hok.
    unfold selected. rewrite method_sum_spec.
    destruct (contributions path_match source_filters lines); reflexivity.
  - intros [fr [[c u]|]]; unfold select_result;
      cbn [result_sum file_result fst snd].
    + reflexivity.
    + destruct fr; reflexivity.
Qed.

(** The selection at the report of the specification. *)
Lemma result_selection_witness :
  ApplyFunc Examples.suffix_match
    (Examples.one_report Examples.report_precedence) "coverage.ade"
    Examples.filters_both
  = inr (Some {| covered := 40; uncovered := 2 |}).
Proof.
  exact (proj1 result_selection
           Examples.suffix_match Examples.filters_both
           (Examples.one_report Examples.report_precedence) "coverage.ade"
           Examples.report_precedence eq_refl eq_refl).
Defined.

(* ===================================================================== *)
(** ** Match-all filters and the file-level fallback *)
(* ===================================================================== *)

Section MatchAll.

Lemma is_match_all_iff (v : CodeCoverageContentFilter) :
  is_match_all v = true <-> includes v = Some ["*"] /\ excludes v = None.
Proof.
  unfold is_match_all. destruct v as [inc exc]. cbn [includes excludes].
  split.
  - intros H. apply andb_prop in H. destruct H as [H Hexc].
    apply andb_prop in H. destruct H as [Hlen Hstar].
    destruct exc; [discriminate|].
    destruct inc as [[|g [|g' l]]|]; try discriminate.
    cbn in Hstar. apply String.eqb_eq in Hstar. subst g. auto.
  - intros [-> ->]. reflexivity.
Qed.

End MatchAll.

(** C5. A filter is match-all exactly when its include list is the single
    glob ["*"] and it has no exclude list (an exclude list that is present
    and empty does not count as none).  The globs of such filters go
    to the match-all set and get no method-level matcher.  A file-level
    record's totals become the fallback only when no fallback is held yet
    and its file name matches a match-all glob; over a whole report the
    fallback is the first such record. *)
Theorem match_all_and_first_fallback :
  (forall v,
     is_match_all v = true <-> includes v = Some ["*"] /\ excludes v = None)
  /\ is_match_all {| includes := Some ["*"]; excludes := Some [] |} = false
  /\ (forall source_filters,
        create_matchers source_filters
        = (map fst (filter (fun kv => is_match_all (snd kv)) source_filters),
           map (fun kv => (fst kv, SourceMatcher.CreateSourceMatcher (snd kv)))
               (filter (fun kv => negb (is_match_all (snd kv)))
                       source_filters)))
  /\ (forall path_match source_filters st data filename c u,
        file_name (get_file data) = Some filename ->
        file_total_covered (get_file data) = Some c ->
        file_total_uncovered (get_file data) = Some u ->
        loop_body path_match
          (fst (create_matchers source_filters))
          (snd (create_matchers source_filters)) st data
        = inr (if (is_None (file_result st)
                   && matches_a_match_all_glob path_match source_filters
                        filename)%bool
               then {| file_result := Some {| covered := c; uncovered := u |};
                       result_sum := result_sum st |}
               else st))
  /\ (forall path_match source_filters fs coverage_filename lines,
        fs coverage_filename = Some lines ->
        forallb (record_ok path_match source_filters) lines = true ->
        contributions path_match source_filters lines = [] ->
        ApplyFunc path_match fs coverage_filename source_filters
        = inr (first_file_offer path_match source_filters lines))
  /\ ApplyFunc Examples.suffix_match
       (Examples.one_report Examples.report_two_files) "coverage.ade"
       Examples.filters_both
     = inr (Some {| covered := 100; uncovered := 5 |}).
Proof.
  split; [exact is_match_all_iff|].
  split; [reflexivity|].
  split; [exact create_matchers_spec|].
  split; [|split; [|reflexivity]].
  - intros path_match source_filters st data filename c u Hname Hc Hu.
    rewrite loop_body_spec.
    unfold record_ok, after_record, contribution, file_offer, has_file_totals.
    rewrite Hname, Hc, Hu. cbn [is_None negb andb].
    destruct st as [[fr|] rs]; cbn [file_result result_sum is_None andb].
    + reflexivity.
    + destruct (matches_a_match_all_glob path_match source_filters filename);
        reflexivity.
  - intros path_match source_filters fs coverage_filename lines Hopen Hok Hnone.
    rewrite (ApplyFunc_spec _ _ _ _ _ Hopen), Hok.
    unfold selected, method_sum. rewrite Hnone. reflexivity.
Qed.

(** The fallback at a report of two file-level lines under the match-all
    glob: the first line wins. *)
Lemma first_fallback_witness :
  ApplyFunc Examples.suffix_match
    (Examples.one_report Examples.report_two_files) "coverage.ade"
    Examples.filters_both
  = inr (Some {| covered := 100; uncovered := 5 |}).
Proof.
  exact (proj1 (proj2 (proj2 (proj2 (proj2 match_all_and_first_fallback))))
           Examples.suffix_match Examples.filters_both
           (Examples.one_report Examples.report_two_files) "coverage.ade"
           Examples.report_two_files eq_refl eq_refl eq_refl).
Defined.

(* ===================================================================== *)
(** ** ExtractCoverageInfo *)
(* ===================================================================== *)

Section NoMatch.

Variable path_match : string -> string -> bool.
Variable source_filters : list (string * CodeCoverageContentFilter).

Lemma no_glob_no_match_all (filename : string) :
  matches_some_glob path_match source_filters filename = false ->
  matches_a_match_all_glob path_match source_filters filename = false.
Proof.
  unfold matches_some_glob, matches_a_match_all_glob.
  induction source_filters as [|[k v] l IH]; cbn [existsb fst snd].
  - reflexivity.
  - intros H. apply orb_false_elim in H. destruct H as [Hk Hl].
    rewrite Hk, andb_false_r. cbn [orb]. apply IH. exact Hl.
Qed.

Lemma no_glob_no_matched_filter (filename : string) :
  matches_some_glob path_match source_filters filename = false ->
  matched_filters path_match source_filters filename = [].
Proof.
  unfold matches_some_glob, matched_filters.
  induction source_filters as [|[k v] l IH]; cbn [existsb filter fst snd].
  - reflexivity.
  - intros H. apply orb_false_elim in H. destruct H as [Hk Hl].
    rewrite Hk, andb_false_r. apply IH. exact Hl.
Qed.

(** A record whose file name matches no glob offers and contributes
    nothing. *)
Lemma no_glob_nothing (data : ReportRecord) :
  (forall filename,
     file_name (get_file data) = Some filename ->
     matches_some_glob path_match source_filters filename = false) ->
  contribution path_match source_filters data = None
  /\ file_offer path_match source_filters data = None.
Proof.
  intros Hno. unfold contribution, file_offer, method_fields.
  destruct (file_name (get_file data)) as [filename|].
  - specialize (Hno filename eq_refl).
    assert (every_matched_accepts path_match source_filters filename
            = fun _ => false) as Hnone.
    { unfold every_matched_accepts.
      rewrite (no_glob_no_matched_filter _ Hno). reflexivity. }
    split.
    + destruct (has_file_totals data); [reflexivity|].
      destruct (method data) as [md|]; [|reflexivity].
      destruct (method_name md), (method_total_covered md),
        (method_total_uncovered md); try reflexivity.
      rewrite Hnone. reflexivity.
    + rewrite (no_glob_no_match_all _ Hno).
      destruct (file_total_covered (get_file data)),
        (file_total_uncovered (get_file data)); reflexivity.
  - split; [destruct (has_file_totals data)|]; reflexivity.
Qed.

Lemma no_glob_selected (lines : list ReportRecord) :
  (forall data filename,
     In data lines ->
     file_name (get_file data) = Some filename ->
     matches_some_glob path_match source_filters filename = false) ->
  selected path_match source_filters lines = None.
Proof.
  intros Hno.
  assert (contributions path_match source_filters lines = []
          /\ first_file_offer path_match source_filters lines = None)
    as [Hc Hf].
  { induction lines as [|data l IH]; cbn [contributions first_file_offer].
    - split; reflexivity.
    - destruct (no_glob_nothing data) as [-> ->].
      + intros filename. apply Hno. left. reflexivity.
      + apply IH. intros d f Hin. apply Hno. right. exact Hin. }
  unfold selected, method_sum. rewrite Hc, Hf. reflexivity.
Qed.

End NoMatch.

(** C8. [ExtractCoverageInfo] returns (0, 0) when the call of
    [ApplyFilters] with [ApplyFunc] yields no result, the (covered,
    uncovered) pair of the result when it yields one, and lets an exception
    through.  [ApplyFunc] itself yields no result, and not (0, 0), on a
    report that is read to its end and whose file names match none of the
    configured globs. *)
Theorem Extract_converts_absence_to_zero :
  forall (path_match : string -> string -> bool)
         (ApplyFilters :
            string -> list (option string) ->
            (list (string * CodeCoverageContentFilter) ->
             result (option CoverageResult)) ->
            result (option CoverageResult))
         (fs : filesystem) (compiler_context : CompilerContext)
         (coverage_filename binary_filename : string),
    (ApplyFilters binary_filename (source_filenames_of compiler_context)
       (ApplyFunc path_match fs coverage_filename) = inr None ->
     ExtractCoverageInfo path_match ApplyFilters fs compiler_context
       coverage_filename binary_filename = inr (0, 0)%Z)
    /\ (forall cr,
          ApplyFilters binary_filename (source_filenames_of compiler_context)
            (ApplyFunc path_match fs coverage_filename) = inr (Some cr) ->
          ExtractCoverageInfo path_match ApplyFilters fs compiler_context
            coverage_filename binary_filename
          = inr (covered cr, uncovered cr))
    /\ (forall e,
          ApplyFilters binary_filename (source_filenames_of compiler_context)
            (ApplyFunc path_match fs coverage_filename) = inl e ->
          ExtractCoverageInfo path_match ApplyFilters fs compiler_context
            coverage_filename binary_filename = inl e)
    /\ (forall source_filters lines,
          fs coverage_filename = Some lines ->
          forallb (record_ok path_match source_filters) lines = true ->
          (forall data filename,
             In data lines ->
             file_name (get_file data) = Some filename ->
             matches_some_glob path_match source_filters filename = false) ->
          ApplyFunc path_match fs coverage_filename source_filters = inr None).
Proof.
  intros path_match ApplyFilters fs compiler_context
    coverage_filename binary_filename.
  unfold ExtractCoverageInfo.
  split; [|split; [|split]].
  - intros ->. reflexivity.
  - intros cr ->. reflexivity.
  - intros e ->. reflexivity.
  - intros source_filters lines Hopen Hok Hno.
    rewrite (ApplyFunc_spec _ _ _ _ _ Hopen), Hok.
    rewrite no_glob_selected by exact Hno. reflexivity.
Qed.

(** The conversion at a report of a header whose name matches no glob:
    [ApplyFunc] yields no result and the Extract phase returns (0, 0). *)
Lemma Extract_absence_witness :
  ApplyFunc Examples.suffix_match
    (Examples.one_report Examples.report_headers) "coverage.ade"
    Examples.filters_cpp
  = inr None
  /\ ExtractCoverageInfo Examples.suffix_match
       (Examples.apply_with Examples.filters_cpp)
       (Examples.one_report Examples.report_headers)
       Examples.empty_context "coverage.ade" "test_binary"
     = inr (0, 0)%Z.
Proof.
  split.
  - apply (proj2 (proj2 (proj2
             (Extract_converts_absence_to_zero
                Examples.suffix_match
                (Examples.apply_with Examples.filters_cpp)
                (Examples.one_report Examples.report_headers)
                Examples.empty_context "coverage.ade" "test_binary")))
             Examples.filters_cpp Examples.report_headers eq_refl eq_refl).
    intros data filename [<-|[<-|[]]] [= <-]; reflexivity.
  - apply (proj1 (Extract_converts_absence_to_zero
                    Examples.suffix_match
                    (Examples.apply_with Examples.filters_cpp)
                    (Examples.one_report Examples.report_headers)
                    Examples.empty_context "coverage.ade" "test_binary")).
    reflexivity.
Defined.

(** C10. Without an [inputs] key and without an [input] key, the derived
    source-filenames list is the one-element list [[None]]: whatever the
    lookup of [input] returns, [[x] or []] is the singleton [[x]], never
    the empty list, and that list is what [ApplyFilters] receives. *)
Theorem source_filenames_without_inputs :
  source_filenames_of {| inputs := None; input := None |} = [None]
  /\ (forall x : option string, Py.list_or [x] [] = [x])
  /\ (forall i : option string,
        source_filenames_of {| inputs := None; input := i |} = [i])
  /\ (forall path_match ApplyFilters fs coverage_filename binary_filename,
        ExtractCoverageInfo path_match ApplyFilters fs
          {| inputs := None; input := None |}
          coverage_filename binary_filename
        = (r <- ApplyFilters binary_filename [None]
                  (ApplyFunc path_match fs coverage_filename) ;;
           match r with
           | None => ret (0, 0)%Z
           | Some cr => ret (covered cr, uncovered cr)
           end)).
Proof.
  repeat split; reflexivity.
Qed.

(* ===================================================================== *)
(** ** Determinism *)
(* ===================================================================== *)

Section Determinism.

Variable path_match : string -> string -> bool.

Lemma existsb_permutation {A : Type} (f : A -> bool) (l l' : list A) :
  Permutation l l' -> existsb f l = existsb f l'.
Proof.
  induction 1 as [|x l l' _ IH|x y l|l l' l'' _ IH1 _ IH2];
    cbn [existsb].
  - reflexivity.
  - rewrite IH. reflexivity.
  - rewrite !orb_assoc, (orb_comm (f y) (f x)). reflexivity.
  - rewrite IH1. exact IH2.
Qed.

Lemma forallb_permutation {A : Type} (f : A -> bool) (l l' : list A) :
  Permutation l l' -> forallb f l = forallb f l'.
Proof.
  induction 1 as [|x l l' _ IH|x y l|l l' l'' _ IH1 _ IH2];
    cbn [forallb].
  - reflexivity.
  - rewrite IH. reflexivity.
  - rewrite !andb_assoc, (andb_comm (f y) (f x)). reflexivity.
  - rewrite IH1. exact IH2.
Qed.

Lemma filter_permutation {A : Type} (f : A -> bool) (l l' : list A) :
  Permutation l l' -> Permutation (filter f l) (filter f l').
Proof.
  induction 1 as [|x l l' _ IH|x y l|l l' l'' _ IH1 _ IH2];
    cbn [filter].
  - constructor.
  - destruct (f x); [constructor|]; exact IH.
  - destruct (f x), (f y); try reflexivity. constructor.
  - etransitivity; eassumption.
Qed.

Lemma forallb_pointwise {A : Type} (f g : A -> bool) (l : list A) :
  (forall a, f a = g a) -> forallb f l = forallb g l.
Proof.
  intros Hfg. induction l as [|a l IH]; cbn [forallb].
  - reflexivity.
  - rewrite Hfg, IH. reflexivity.
Qed.

Lemma truthy_permutation {A : Type} (l l' : list A) :
  Permutation l l' -> Py.truthy l = Py.truthy l'.
Proof.
  intros H. apply Permutation_length in H.
  destruct l, l'; try discriminate; reflexivity.
Qed.

Variables source_filters source_filters' :
  list (string * CodeCoverageContentFilter).
Hypothesis same_mapping : Permutation source_filters source_filters'.

Lemma every_matched_accepts_permutation (filename name : string) :
  every_matched_accepts path_match source_filters filename name
  = every_matched_accepts path_match source_filters' filename name.
Proof.
  unfold every_matched_accepts, matched_filters.
  rewrite (truthy_permutation _ _ (filter_permutation _ _ _ same_mapping)).
  rewrite (forallb_permutation _ _ _ (filter_permutation _ _ _ same_mapping)).
  reflexivity.
Qed.

Lemma match_all_glob_permutation (filename : string) :
  matches_a_match_all_glob path_match source_filters filename
  = matches_a_match_all_glob path_match source_filters' filename.
Proof.
  unfold matches_a_match_all_glob.
  apply existsb_permutation. exact same_mapping.
Qed.

Lemma record_ok_permutation (data : ReportRecord) :
  record_ok path_match source_filters data
  = record_ok path_match source_filters' data.
Proof.
  unfold record_ok.
  destruct (file_name (get_file data)) as [filename|]; [|reflexivity].
  destruct (has_file_totals data); [reflexivity|].
  destruct (method data) as [md|]; [|reflexivity].
  destruct (method_name md) as [name|]; [|reflexivity].
  rewrite every_matched_accepts_permutation. reflexivity.
Qed.

Lemma contribution_permutation (data : ReportRecord) :
  contribution path_match source_filters data
  = contribution path_match source_filters' data.
Proof.
  unfold contribution.
  destruct (has_file_totals data); [reflexivity|].
  destruct (method_fields data) as [[[[filename name] c] u]|]; [|reflexivity].
  rewrite every_matched_accepts_permutation. reflexivity.
Qed.

Lemma file_offer_permutation (data : ReportRecord) :
  file_offer path_match source_filters data
  = file_offer path_match source_filters' data.
Proof.
  unfold file_offer.
  destruct (file_name (get_file data)) as [filename|]; [|reflexivity].
  rewrite match_all_glob_permutation. reflexivity.
Qed.

Lemma selected_permutation (lines : list ReportRecord) :
  selected path_match source_filters lines
  = selected path_match source_filters' lines.
Proof.
  unfold selected, method_sum.
  assert (contributions path_match source_filters lines
          = contributions path_match source_filters' lines) as ->.
  { induction lines as [|data l IH]; cbn [contributions].
    - reflexivity.
    - rewrite contribution_permutation, IH. reflexivity. }
  assert (first_file_offer path_match source_filters lines
          = first_file_offer path_match source_filters' lines) as ->.
  { induction lines as [|data l IH]; cbn [first_file_offer].
    - reflexivity.
    - rewrite file_offer_permutation, IH. reflexivity. }
  reflexivity.
Qed.

(** The result of [ApplyFunc] is a function of the contents of the report
    and of the filter mapping, whatever the order of its items. *)
Lemma ApplyFunc_permutation (fs fs' : filesystem) (coverage_filename : string) :
  fs coverage_filename = fs' coverage_filename ->
  ApplyFunc path_match fs coverage_filename source_filters
  = ApplyFunc path_match fs' coverage_filename source_filters'.
Proof.
  intros Hsame.
  destruct (fs coverage_filename) as [lines|] eqn:Hopen.
  - rewrite (ApplyFunc_spec _ _ _ _ _ Hopen).
    rewrite (ApplyFunc_spec _ _ _ _ _ (eq_sym Hsame)).
    rewrite selected_permutation.
    rewrite (forallb_pointwise _ _ lines record_ok_permutation).
    reflexivity.
  - rewrite (ApplyFunc_no_file _ _ _ _ Hopen).
    rewrite (ApplyFunc_no_file _ _ _ _ (eq_sym Hsame)).
    reflexivity.
Qed.

End Determinism.

(** C9. The extraction is deterministic: two calls of [ApplyFunc] in a row
    on the same report and filters return the same result, and more
    generally the result depends only on the contents of the report at
    [coverage_filename] and on the filter mapping (not on the rest of the
    file system, nor on the order in which the mapping lists its items). *)
Theorem ApplyFunc_deterministic :
  forall (path_match : string -> string -> bool)
         (fs : filesystem) (coverage_filename : string)
         (source_filters : list (string * CodeCoverageContentFilter)),
    fst (ApplyFunc_twice path_match fs coverage_filename source_filters)
    = snd (ApplyFunc_twice path_match fs coverage_filename source_filters)
    /\ (forall fs' source_filters',
          fs coverage_filename = fs' coverage_filename ->
          Permutation source_filters source_filters' ->
          ApplyFunc path_match fs coverage_filename source_filters
          = ApplyFunc path_match fs' coverage_filename source_filters').
Proof.
  intros path_match fs coverage_filename source_filters. split.
  - reflexivity.
  - intros fs' source_filters' Hsame Hperm.
    apply ApplyFunc_permutation; assumption.
Qed.

(** Determinism at the report of the specification, with the two filters
    listed in the other order and another file next to the report. *)
Lemma ApplyFunc_deterministic_witness :
  ApplyFunc Examples.suffix_match
    (Examples.one_report Examples.report_precedence) "coverage.ade"
    Examples.filters_both
  = ApplyFunc Examples.suffix_match
      (fun path =>
         if String.eqb path "other.ade" then Some Examples.report_headers
         else Examples.one_report Examples.report_precedence path)
      "coverage.ade"
      [("*.cpp", Examples.pkg_filter); ("*", Examples.match_all_filter)].
Proof.
  apply (proj2 (ApplyFunc_deterministic
                  Examples.suffix_match
                  (Examples.one_report Examples.report_precedence)
                  "coverage.ade" Examples.filters_both)).
  - reflexivity.
  - apply perm_swap.
Defined.

(* ===================================================================== *)
(** ** The matcher, segment by segment *)
(* ===================================================================== *)

Section SegmentProperties.

Import ItemMatcher Segments.

Lemma skipn_cons_nth {A : Type} (d : A) (l : list A) :
  forall n, n < length l -> skipn n l = nth n l d :: skipn (S n) l.
Proof.
  induction l as [|a l IH]; intros n Hn; cbn [length] in Hn; [lia|].
  destruct n as [|n]; [reflexivity|].
  cbn [skipn nth]. rewrite IH by lia. reflexivity.
Qed.

(** The inner loop, by index, drops what [drop_until] drops. *)
Lemma skip_until_drop (value_parts : list string) (next_glob_part : string) :
  forall fuel value_part_index,
    length value_parts - value_part_index < fuel ->
    value_part_index <= length value_parts ->
    exists value_part_index',
      skip_until fuel value_parts next_glob_part value_part_index
      = Some value_part_index'
      /\ value_part_index' <= length value_parts
      /\ skipn value_part_index' value_parts
         = drop_until next_glob_part (skipn value_part_index value_parts).
Proof.
  induction fuel as [|fuel IH]; intros vi Hfuel Hle; [lia|].
  cbn [skip_until].
  destruct (vi <? length value_parts)%nat eqn:Hlt; cbn [andb].
  - apply Nat.ltb_lt in Hlt.
    rewrite (skipn_cons_nth "" value_parts vi Hlt). cbn [drop_until].
    destruct (negb (String.eqb (nth vi value_parts "") next_glob_part)).
    + apply IH; lia.
    + exists vi. split; [reflexivity|]. split; [lia|].
      apply skipn_cons_nth. exact Hlt.
  - apply Nat.ltb_ge in Hlt. exists vi. split; [reflexivity|].
    split; [lia|]. rewrite skipn_all2 by lia. reflexivity.
Qed.

(** The outer loop, by index, answers what [matches_from] answers on the
    segments from the two cursors on. *)
Lemma while_loop_matches_from (glob_parts value_parts : list string) :
  forall fuel glob_part_index value_part_index,
    length glob_parts - glob_part_index < fuel ->
    glob_part_index <= length glob_parts ->
    value_part_index <= length value_parts ->
    exists e,
      while_loop fuel glob_parts value_parts glob_part_index value_part_index
      = Some e
      /\ exit_value glob_parts value_parts e
         = matches_from (skipn glob_part_index glob_parts)
                        (skipn value_part_index value_parts).
Proof.
  induction fuel as [|fuel IH]; intros gi vi Hfuel Hgi Hvi; [lia|].
  cbn [while_loop].
  destruct (gi <? length glob_parts)%nat eqn:Hg; cbn [andb].
  - apply Nat.ltb_lt in Hg.
    rewrite (skipn_cons_nth "" glob_parts gi Hg).
    destruct (vi <? length value_parts)%nat eqn:Hv.
    + apply Nat.ltb_lt in Hv.
      rewrite (skipn_cons_nth "" value_parts vi Hv).
      cbv zeta. cbn [matches_from].
      destruct (String.eqb (nth gi glob_parts "") "*{1}").
      { apply IH; lia. }
      destruct (String.eqb (nth gi glob_parts "") "*").
      { destruct (gi + 1 =? length glob_parts)%nat eqn:Hlast.
        - apply Nat.eqb_eq in Hlast.
          rewrite (skipn_all2 glob_parts) by lia.
          eexists. split; reflexivity.
        - apply Nat.eqb_neq in Hlast.
          replace (gi + 1) with (S gi) by lia.
          destruct (skip_until_drop value_parts (nth (S gi) glob_parts "")
                      (S (length value_parts)) vi) as (vi' & Hskip & Hvi' & Hdrop);
            [lia|lia|].
          rewrite Hskip.
          destruct (IH (S gi) vi') as (e & He & Hval); [lia|lia|lia|].
          exists e. split; [exact He|]. rewrite Hval, Hdrop.
          rewrite (skipn_cons_nth "" value_parts vi Hv).
          rewrite (skipn_cons_nth "" glob_parts (S gi)) by lia.
          reflexivity. }
      destruct (negb (String.eqb (nth gi glob_parts "") (nth vi value_parts ""))).
      { eexists. split; [reflexivity|]. cbn [exit_value].
        replace (gi =? length glob_parts)%nat with false; [reflexivity|].
        symmetry. apply Nat.eqb_neq. lia. }
      apply IH; lia.
    + apply Nat.ltb_ge in Hv. rewrite (skipn_all2 value_parts) by lia.
      eexists. split; [reflexivity|]. cbn [exit_value matches_from].
      replace (gi =? length glob_parts)%nat with false; [reflexivity|].
      symmetry. apply Nat.eqb_neq. lia.
  - apply Nat.ltb_ge in Hg. rewrite (skipn_all2 glob_parts) by lia.
    eexists. split; [reflexivity|]. cbn [exit_value matches_from].
    replace (gi =? length glob_parts)%nat with true
      by (symmetry; apply Nat.eqb_eq; lia).
    cbn [andb].
    destruct (vi <? length value_parts)%nat eqn:Hv.
    + apply Nat.ltb_lt in Hv.
      rewrite (skipn_cons_nth "" value_parts vi Hv).
      apply Nat.eqb_neq. lia.
    + apply Nat.ltb_ge in Hv. rewrite (skipn_all2 value_parts) by lia.
      apply Nat.eqb_eq. lia.
Qed.

(** The matcher is [matches_from] on the two lists of segments. *)
Lemma Matches_matches_from (pattern value : string) :
  Matches pattern value = matches_from (Py.split pattern) (Py.split value).
Proof.
  unfold Matches, CreateItemMatcher, Impl, run.
  destruct (while_loop_matches_from (Py.split pattern) (Py.split value)
              (S (length (Py.split pattern))) 0 0) as (e & He & Hv);
    [lia|lia|lia|].
  rewrite He. cbn [option_map]. exact Hv.
Qed.

End SegmentProperties.

(* ===================================================================== *)
(** ** Splitting on the separator *)
(* ===================================================================== *)

Section SplitProperties.

Local Open Scope string_scope.

Lemma string_app_nil_r (s : string) : (s ++ "")%string = s.
Proof.
  induction s as [|a s IH]; cbn; [reflexivity|]. rewrite IH. reflexivity.
Qed.

Lemma string_app_assoc (s t u : string) :
  ((s ++ t) ++ u)%string = (s ++ (t ++ u))%string.
Proof.
  induction s as [|a s IH]; cbn; [reflexivity|]. rewrite IH. reflexivity.
Qed.

Lemma split_from_two (cur : string) (a b : ascii) (rest : string) :
  Py.split_from cur (String a (String b rest))
  = if (Ascii.eqb a ":" && Ascii.eqb b ":")%bool
    then cur :: Py.split_from "" rest
    else Py.split_from (cur ++ String a "")%string (String b rest).
Proof. reflexivity. Qed.

(** Joining the segments of a split with the separator gives the string
    back, and a split has at least one segment. *)
Lemma split_from_join (s : string) :
  (forall cur,
     Py.split_from cur s <> []
     /\ String.concat "::" (Py.split_from cur s) = (cur ++ s)%string)
  /\ (forall a cur,
        Py.split_from cur (String a s) <> []
        /\ String.concat "::" (Py.split_from cur (String a s))
           = (cur ++ String a s)%string).
Proof.
  induction s as [|b rest [IH1 IH2]].
  - split.
    + intros cur. cbn. rewrite string_app_nil_r. split; [discriminate|reflexivity].
    + intros a cur. cbn. split; [discriminate|reflexivity].
  - assert (forall cur,
              Py.split_from cur (String b rest) <> []
              /\ String.concat "::" (Py.split_from cur (String b rest))
                 = (cur ++ String b rest)%string) as Hone.
    { intros cur. apply IH2. }
    split; [exact Hone|].
    intros a cur. rewrite split_from_two.
    destruct (Ascii.eqb a ":") eqn:Ha; cbn [andb].
    + destruct (Ascii.eqb b ":") eqn:Hb.
      * apply Ascii.eqb_eq in Ha. apply Ascii.eqb_eq in Hb. subst a b.
        split; [discriminate|].
        destruct (IH1 "") as [Hne Hjoin].
        destruct (Py.split_from "" rest) as [|x l] eqn:Hsplit;
          [contradiction|].
        cbn [String.concat]. cbn [String.concat] in Hjoin.
        rewrite Hjoin. reflexivity.
      * destruct (Hone (cur ++ String a "")%string) as [Hne Hjoin].
        split; [exact Hne|]. rewrite Hjoin, string_app_assoc. reflexivity.
    + destruct (Hone (cur ++ String a "")%string) as [Hne Hjoin].
      split; [exact Hne|]. rewrite Hjoin, string_app_assoc. reflexivity.
Qed.

Lemma split_join (s : string) : String.concat "::" (Py.split s) = s.
Proof.
  unfold Py.split. destruct (split_from_join s) as [H _].
  destruct (H "") as [_ Hjoin]. exact Hjoin.
Qed.

Lemma split_nonempty (s : string) : Py.split s <> [].
Proof.
  unfold Py.split. destruct (split_from_join s) as [H _].
  destruct (H "") as [Hne _]. exact Hne.
Qed.

Lemma split_injective (s t : string) : Py.split s = Py.split t -> s = t.
Proof.
  intros H. rewrite <- (split_join s), <- (split_join t), H. reflexivity.
Qed.

End SplitProperties.

(* ===================================================================== *)
(** ** What the globs match *)
(* ===================================================================== *)

Section GlobProperties.

Import ItemMatcher Segments.

(** Segments that are not ["*"] are matched one to one. *)
Lemma matches_from_prefix (pre gs : list string) :
  Forall no_star pre ->
  forall vs,
    matches_from (pre ++ gs) vs = true
    <-> exists vpre rest,
          vs = vpre ++ rest
          /\ Forall2 agree pre vpre
          /\ matches_from gs rest = true.
Proof.
  induction 1 as [|g pre Hg Hpre IH]; intros vs.
  - cbn [app]. split.
    + intros H. exists [], vs. repeat split; [constructor|exact H].
    + intros (vpre & rest & -> & Hagree & H). inversion Hagree. exact H.
  - cbn [app matches_from]. destruct vs as [|v vs].
    + split; [discriminate|].
      intros (vpre & rest & Hvs & Hagree & _). inversion Hagree; subst.
      discriminate.
    + destruct (String.eqb g "*{1}") eqn:Hone.
      { apply String.eqb_eq in Hone. rewrite IH. split.
        - intros (vpre & rest & -> & Hagree & H).
          exists (v :: vpre), rest. repeat split; [|exact H].
          constructor; [left; exact Hone|exact Hagree].
        - intros (vpre & rest & Hvs & Hagree & H).
          inversion Hagree as [|g' v' pre' vpre' Hgv Hrest]; subst.
          injection Hvs as <- ->. exists vpre', rest. auto. }
      apply String.eqb_neq in Hone.
      destruct (String.eqb g "*") eqn:Hstar;
        [apply String.eqb_eq in Hstar; contradiction|].
      destruct (String.eqb g v) eqn:Hgv; cbn [negb].
      { apply String.eqb_eq in Hgv. subst v. rewrite IH. split.
        - intros (vpre & rest & -> & Hagree & H).
          exists (g :: vpre), rest. repeat split; [|exact H].
          constructor; [right; reflexivity|exact Hagree].
        - intros (vpre & rest & Hvs & Hagree & H).
          inversion Hagree as [|g' v' pre' vpre' Hgv Hrest]; subst.
          injection Hvs as _ ->. exists vpre', rest. auto. }
      apply String.eqb_neq in Hgv. split; [discriminate|].
      intros (vpre & rest & Hvs & Hagree & _).
      inversion Hagree as [|g' v' pre' vpre' [Hg'|Hg'] Hrest]; subst;
        [contradiction|].
      injection Hvs as Hv _. congruence.
Qed.

Lemma agree_literal (gs vs : list string) :
  Forall literal gs -> Forall2 agree gs vs -> gs = vs.
Proof.
  intros Hlit Hagree. induction Hagree as [|g v gs vs [Hg|Hg] _ IH].
  - reflexivity.
  - inversion Hlit as [|? ? [_ Hone] _]; subst. contradiction.
  - inversion Hlit; subst. f_equal. apply IH. assumption.
Qed.

Lemma agree_refl (gs : list string) : Forall2 agree gs gs.
Proof.
  induction gs; constructor; [right; reflexivity|assumption].
Qed.

Lemma literal_no_star (gs : list string) :
  Forall literal gs -> Forall no_star gs.
Proof.
  intros H. eapply Forall_impl; [|exact H]. intros g [Hg _]. exact Hg.
Qed.

(** X1. A glob without the wildcard ["*"] matches exactly the values with
    the same number of segments, each equal to the glob's segment or
    standing under a ["*{1}"]. *)
Theorem Matches_without_star (pattern value : string) :
  Forall no_star (Py.split pattern) ->
  (Matches pattern value = true
   <-> Forall2 agree (Py.split pattern) (Py.split value)).
Proof.
  intros Hns. rewrite Matches_matches_from.
  rewrite <- (app_nil_r (Py.split pattern)) at 1.
  rewrite (matches_from_prefix _ [] Hns). split.
  - intros (vpre & rest & Hvs & Hagree & H).
    destruct rest; [|discriminate]. rewrite app_nil_r in Hvs.
    rewrite Hvs. exact Hagree.
  - intros Hagree. exists (Py.split value), [].
    rewrite app_nil_r. auto.
Qed.

(** X2. A glob without wildcard segments matches its own text and nothing
    else. *)
Theorem Matches_literal_iff_equal (pattern value : string) :
  Forall literal (Py.split pattern) ->
  (Matches pattern value = true <-> pattern = value).
Proof.
  intros Hlit.
  rewrite (Matches_without_star _ _ (literal_no_star _ Hlit)). split.
  - intros Hagree. apply split_injective.
    apply agree_literal; assumption.
  - intros <-. apply agree_refl.
Qed.

(** X3. A glob that ends in ["*"], with no other ["*"] before it, matches
    exactly the values that continue its leading segments by at least one
    more segment: the trailing wildcard does not match an empty rest. *)
Theorem Matches_trailing_star (pattern value : string) (pre : list string) :
  Py.split pattern = pre ++ ["*"] ->
  Forall no_star pre ->
  (Matches pattern value = true
   <-> exists vpre rest,
         Py.split value = vpre ++ rest
         /\ rest <> []
         /\ Forall2 agree pre vpre).
Proof.
  intros Hsplit Hns. rewrite Matches_matches_from, Hsplit.
  rewrite (matches_from_prefix _ _ Hns). split.
  - intros (vpre & rest & Hvs & Hagree & H).
    exists vpre, rest. repeat split; [exact Hvs| |exact Hagree].
    intros ->. discriminate.
  - intros (vpre & rest & Hvs & Hne & Hagree).
    exists vpre, rest. repeat split; [exact Hvs|exact Hagree|].
    destruct rest; [contradiction|reflexivity].
Qed.

(** X4. The glob ["*"] matches every value, the empty string included. *)
Theorem Matches_star_everything (value : string) :
  Matches "*" value = true.
Proof.
  rewrite Matches_matches_from.
  change (Py.split "*") with ["*"].
  destruct (Py.split value) as [|v vs] eqn:Hsplit.
  - exfalso. exact (split_nonempty value Hsplit).
  - reflexivity.
Qed.

Lemma drop_until_spec (x : string) (vs : list string) :
  (~ In x vs /\ drop_until x vs = [])
  \/ exists skipped rest,
       vs = skipped ++ x :: rest
       /\ ~ In x skipped
       /\ drop_until x vs = x :: rest.
Proof.
  induction vs as [|v vs IH]; cbn [drop_until].
  - left. split; [intros []|reflexivity].
  - destruct (String.eqb v x) eqn:Hvx; cbn [negb].
    + apply String.eqb_eq in Hvx. subst v. right.
      exists [], vs. repeat split. intros [].
    + apply String.eqb_neq in Hvx.
      destruct IH as [[Hnot Hnil]|(skipped & rest & -> & Hnot & Hdrop)].
      * left. split; [|exact Hnil]. intros [H|H]; [congruence|auto].
      * right. exists (v :: skipped), rest. repeat split; [|exact Hdrop].
        intros [H|H]; [congruence|auto].
Qed.

Lemma matches_from_single (x : string) (vs : list string) :
  literal x -> (matches_from [x] vs = true <-> vs = [x]).
Proof.
  intros [Hstar Hone]. cbn [matches_from].
  destruct vs as [|v vs]; [split; discriminate|].
  destruct (String.eqb x "*{1}") eqn:E1;
    [apply String.eqb_eq in E1; contradiction|].
  destruct (String.eqb x "*") eqn:E2;
    [apply String.eqb_eq in E2; contradiction|].
  destruct (String.eqb x v) eqn:E3; cbn [negb].
  - apply String.eqb_eq in E3. subst v.
    destruct vs; split; try discriminate; try reflexivity.
  - apply String.eqb_neq in E3. split; [discriminate|].
    intros [= H _]. congruence.
Qed.

(** X5. The wildcard ["*"] does not backtrack: a glob ["...::*::x"] whose
    last segment [x] is a literal matches only the values in which, after
    the leading segments, [x] occurs once, as the last segment. *)
Theorem Matches_star_stops_at_first (pattern value : string)
    (pre : list string) (x : string) :
  Py.split pattern = pre ++ ["*"; x] ->
  Forall no_star pre ->
  literal x ->
  (Matches pattern value = true
   <-> exists vpre skipped,
         Py.split value = vpre ++ skipped ++ [x]
         /\ Forall2 agree pre vpre
         /\ ~ In x skipped).
Proof.
  intros Hsplit Hns Hlit. rewrite Matches_matches_from, Hsplit.
  rewrite (matches_from_prefix _ _ Hns). split.
  - intros (vpre & rest & Hvs & Hagree & H).
    exists vpre. cbn [matches_from] in H.
    destruct rest as [|v rest']; [discriminate|].
    change (String.eqb "*" "*{1}") with false in H.
    change (String.eqb "*" "*") with true in H. cbv iota in H.
    apply (matches_from_single x _ Hlit) in H.
    destruct (drop_until_spec x (v :: rest'))
      as [[_ Hnil]|(skipped & rest & Heq & Hnot & Hdrop)];
      [congruence|].
    rewrite Hdrop in H. injection H as ->.
    exists skipped. rewrite Heq in Hvs. auto.
  - intros (vpre & skipped & Hvs & Hagree & Hnot).
    exists vpre, (skipped ++ [x]). repeat split; [exact Hvs|exact Hagree|].
    cbn [matches_from].
    destruct (skipped ++ [x]) as [|v rest'] eqn:Heq;
      [destruct skipped; discriminate|].
    change (String.eqb "*" "*{1}") with false.
    change (String.eqb "*" "*") with true. cbv iota.
    apply (matches_from_single x _ Hlit). rewrite <- Heq.
    destruct (drop_until_spec x (skipped ++ [x]))
      as [[Habs _]|(skipped' & rest & Heq' & Hnot' & Hdrop)].
    + exfalso. apply Habs. apply in_or_app. right. left. reflexivity.
    + rewrite Hdrop. f_equal.
      clear - Heq' Hnot Hnot'.
      revert skipped' Heq' Hnot'.
      induction skipped as [|s skipped IH]; intros skipped' Heq' Hnot'.
      * destruct skipped' as [|s' skipped'].
        -- injection Heq' as <-. reflexivity.
        -- cbn in Heq'. injection Heq' as <- Hrest.
           exfalso. apply Hnot'. left. reflexivity.
      * destruct skipped' as [|s' skipped'].
        -- cbn in Heq'. injection Heq' as -> _.
           exfalso. apply Hnot. left. reflexivity.
        -- cbn in Heq'. injection Heq' as <- Hrest.
           apply (IH (fun H => Hnot (or_intror H)) skipped' Hrest).
           intros H. apply Hnot'. right. exact H.
Qed.

Lemma drop_until_incl (x w : string) (vs : list string) :
  In w (drop_until x vs) -> In w vs.
Proof.
  induction vs as [|v vs IH]; cbn [drop_until]; [intros []|].
  destruct (negb (String.eqb v x)); [|auto].
  intros H. right. apply IH. exact H.
Qed.

(** X6. The segment that follows a ["*"] is looked for by its text among
    the value segments, even when it is itself a wildcard: a glob matches
    no value that lacks a segment spelled like the one after a ["*"]. *)
Theorem Matches_star_needs_next (pattern value : string)
    (pre post : list string) (w : string) :
  Py.split pattern = pre ++ "*" :: w :: post ->
  ~ In w (Py.split value) ->
  Matches pattern value = false.
Proof.
  intros Hsplit. rewrite Matches_matches_from, Hsplit.
  generalize (Py.split value). clear Hsplit.
  induction pre as [|g pre IH]; intros vs Hnot.
  - cbn [app matches_from]. destruct vs as [|v vs]; [reflexivity|].
    change (String.eqb "*" "*{1}") with false.
    change (String.eqb "*" "*") with true. cbv iota.
    destruct (drop_until_spec w (v :: vs))
      as [[_ ->]|(skipped & rest & Heq & _ & _)].
    + reflexivity.
    + exfalso. apply Hnot. rewrite Heq. apply in_or_app. right. left.
      reflexivity.
  - cbn [app matches_from]. destruct vs as [|v vs]; [reflexivity|].
    assert (~ In w vs) as Hvs by (intros H; apply Hnot; right; exact H).
    destruct (String.eqb g "*{1}"); [apply IH; exact Hvs|].
    destruct (String.eqb g "*").
    + destruct (pre ++ "*" :: w :: post) as [|next tail] eqn:Hrest.
      * destruct pre; discriminate.
      * apply IH.
        intros H. apply Hnot. eapply drop_until_incl. exact H.
    + destruct (negb (String.eqb g v)); [reflexivity|apply IH; exact Hvs].
Qed.

End GlobProperties.

(** The rule of segments without ["*"] at ["a::*{1}::c"] against
    ["a::b::c"]. *)
Lemma Matches_without_star_witness :
  ItemMatcher.Matches "a::*{1}::c" "a::b::c" = true.
Proof.
  assert (Forall Segments.no_star (Py.split "a::*{1}::c")) as Hns.
  { cbv. repeat constructor; discriminate. }
  apply (proj2 (Matches_without_star "a::*{1}::c" "a::b::c" Hns)).
  change (Forall2 Segments.agree ["a"; "*{1}"; "c"] ["a"; "b"; "c"]).
  constructor; [right; reflexivity|].
  constructor; [left; reflexivity|].
  constructor; [right; reflexivity|constructor].
Defined.

(** A literal glob against a value with one more segment. *)
Lemma Matches_literal_witness :
  ItemMatcher.Matches "pkg::foo" "pkg::foo" = true
  /\ (ItemMatcher.Matches "pkg::foo" "pkg::foo::bar" = true
      <-> "pkg::foo" = "pkg::foo::bar").
Proof.
  assert (Forall Segments.literal (Py.split "pkg::foo")) as Hlit.
  { cbv. repeat constructor; discriminate. }
  split.
  - apply (proj2 (Matches_literal_iff_equal "pkg::foo" "pkg::foo" Hlit)).
    reflexivity.
  - apply (Matches_literal_iff_equal "pkg::foo" "pkg::foo::bar" Hlit).
Defined.

(** The trailing wildcard at ["pkg::*"]: it matches ["pkg::foo::bar"]. *)
Lemma Matches_trailing_star_witness :
  ItemMatcher.Matches "pkg::*" "pkg::foo::bar" = true.
Proof.
  assert (Forall Segments.no_star ["pkg"]) as Hns.
  { repeat constructor. discriminate. }
  apply (proj2 (Matches_trailing_star "pkg::*" "pkg::foo::bar" ["pkg"]
                  eq_refl Hns)).
  exists ["pkg"], ["foo"; "bar"].
  split; [reflexivity|]. split; [discriminate|].
  constructor; [right; reflexivity|constructor].
Defined.

(** The first occurrence at ["*::c"]: it matches ["a::b::c"]. *)
Lemma Matches_star_stops_at_first_witness :
  ItemMatcher.Matches "*::c" "a::b::c" = true.
Proof.
  assert (Segments.literal "c") as Hlit by (split; discriminate).
  apply (proj2 (Matches_star_stops_at_first "*::c" "a::b::c" [] "c"
                  eq_refl (Forall_nil _) Hlit)).
  exists [], ["a"; "b"].
  split; [reflexivity|]. split; [constructor|].
  intros [H|[H|[]]]; discriminate.
Defined.

(** The glob ["a::*::*{1}"] against ["a::b::c"], which has no segment
    spelled ["*{1}"]. *)
Lemma Matches_star_needs_next_witness :
  ItemMatcher.Matches "a::*::*{1}" "a::b::c" = false.
Proof.
  apply (Matches_star_needs_next "a::*::*{1}" "a::b::c" ["a"] [] "*{1}"
           eq_refl).
  intros [H|[H|[H|[]]]]; discriminate.
Defined.

(* ===================================================================== *)
(** ** The source filter, as its lists grow *)
(* ===================================================================== *)

Section FilterMonotone.

Import SourceMatcher.

Lemma any_glob_matches_incl (globs globs' : list string) (identifier : string) :
  incl globs globs' ->
  Policy.any_glob_matches globs identifier = true ->
  Policy.any_glob_matches globs' identifier = true.
Proof.
  unfold Policy.any_glob_matches. intros Hincl H.
  apply existsb_exists in H. destruct H as (g & Hin & Hg).
  apply existsb_exists. exists g. split; [apply Hincl; exact Hin|exact Hg].
Qed.

(** X7. More exclude globs never make a filter accept more, and more
    include globs never make a filter with a non-empty include list accept
    less. *)
Theorem Accepts_monotone (filter filter' : CodeCoverageContentFilter)
    (identifier : string) :
  incl (Policy.exclude_globs filter') (Policy.exclude_globs filter) ->
  incl (Policy.include_globs filter) (Policy.include_globs filter') ->
  Policy.include_globs filter <> [] ->
  Accepts filter identifier = true ->
  Accepts filter' identifier = true.
Proof.
  unfold Accepts. rewrite !CreateSourceMatcher_policy. unfold Policy.accepts.
  intros Hex Hin Hne.
  destruct (Policy.any_glob_matches (Policy.exclude_globs filter') identifier)
    eqn:Hex'.
  - rewrite (any_glob_matches_incl _ _ _ Hex Hex'). discriminate.
  - destruct (Policy.any_glob_matches (Policy.exclude_globs filter) identifier);
      [discriminate|].
    destruct (Policy.include_globs filter) as [|g globs] eqn:Hglobs;
      [contradiction|].
    cbn [Py.truthy negb orb]. intros H.
    destruct (Policy.any_glob_matches (g :: globs) identifier) eqn:Hany;
      [|discriminate].
    rewrite (any_glob_matches_incl _ _ _ Hin Hany), orb_true_r.
    reflexivity.
Qed.

End FilterMonotone.

(** The filter of the specification with one more include glob and without
    its exclude glob still accepts ["pkg::foo::bar"]. *)
Lemma Accepts_monotone_witness :
  SourceMatcher.Accepts
    {| includes := Some ["other::*"; "pkg::*"]; excludes := None |}
    "pkg::foo::bar" = true.
Proof.
  apply (Accepts_monotone Examples.pkg_filter
           {| includes := Some ["other::*"; "pkg::*"]; excludes := None |}
           "pkg::foo::bar").
  - intros g [].
  - intros g [<-|[]]. right. left. reflexivity.
  - discriminate.
  - reflexivity.
Defined.

(* ===================================================================== *)
(** ** More on the aggregator *)
(* ===================================================================== *)

Section AggregatorInvariants.

Variable path_match : string -> string -> bool.
Variable source_filters : list (string * CodeCoverageContentFilter).

Lemma contribution_nonneg (data : ReportRecord) (c u : Z) :
  Counts.record_nonneg data ->
  contribution path_match source_filters data = Some (c, u) ->
  (0 <= c /\ 0 <= u)%Z.
Proof.
  intros (_ & _ & Hmethod). unfold contribution, method_fields.
  destruct (has_file_totals data); [discriminate|].
  destruct (file_name (get_file data)) as [filename|]; [|discriminate].
  destruct (method data) as [md|]; [|discriminate].
  destruct (method_name md) as [name|]; [|discriminate].
  destruct (method_total_covered md) as [c'|]; [|discriminate].
  destruct (method_total_uncovered md) as [u'|]; [|discriminate].
  destruct (every_matched_accepts _ _ _ _); [|discriminate].
  intros [= <- <-]. exact Hmethod.
Qed.

Lemma file_offer_nonneg (data : ReportRecord) (r : CoverageResult) :
  Counts.record_nonneg data ->
  file_offer path_match source_filters data = Some r ->
  (0 <= covered r /\ 0 <= uncovered r)%Z.
Proof.
  intros (Hc & Hu & _). unfold file_offer.
  destruct (file_name (get_file data)) as [filename|]; [|discriminate].
  destruct (file_total_covered (get_file data)) as [c|]; [|discriminate].
  destruct (file_total_uncovered (get_file data)) as [u|]; [|discriminate].
  destruct (matches_a_match_all_glob _ _ _); [|discriminate].
  intros [= <-]. split; assumption.
Qed.

Lemma contributions_nonneg (lines : list ReportRecord) :
  Forall Counts.record_nonneg lines ->
  Forall (fun cu => (0 <= fst cu /\ 0 <= snd cu)%Z)
         (contributions path_match source_filters lines).
Proof.
  induction 1 as [|data lines Hdata _ IH]; cbn [contributions].
  - constructor.
  - destruct (contribution path_match source_filters data) as [[c u]|] eqn:Hc;
      [|exact IH].
    constructor; [|exact IH].
    exact (contribution_nonneg data c u Hdata Hc).
Qed.

Lemma sum_nonneg (l : list Z) :
  Forall (fun z => (0 <= z)%Z) l -> (0 <= fold_right Z.add 0 l)%Z.
Proof.
  induction 1 as [|z l Hz _ IH]; cbn [fold_right]; lia.
Qed.

(** X8. On a report whose counts are all natural numbers, the counts of a
    result are natural numbers. *)
Theorem result_nonneg (fs : filesystem) (coverage_filename : string)
    (lines : list ReportRecord) (r : CoverageResult) :
  fs coverage_filename = Some lines ->
  Forall Counts.record_nonneg lines ->
  ApplyFunc path_match fs coverage_filename source_filters = inr (Some r) ->
  (0 <= covered r /\ 0 <= uncovered r)%Z.
Proof.
  intros Hopen Hnonneg. rewrite (ApplyFunc_spec _ _ _ _ _ Hopen).
  destruct (forallb _ lines); [|discriminate].
  unfold selected. rewrite method_sum_spec.
  pose proof (contributions_nonneg lines Hnonneg) as Hcs.
  destruct (contributions path_match source_filters lines) as [|cu cs].
  - intros [= Hoffer]. clear Hcs Hopen.
    induction Hnonneg as [|data l Hdata _ IH]; cbn [first_file_offer] in Hoffer;
      [discriminate|].
    destruct (file_offer path_match source_filters data) as [r'|] eqn:Hfo.
    + injection Hoffer as ->. exact (file_offer_nonneg data r Hdata Hfo).
    + apply IH. exact Hoffer.
  - intros [= <-]. cbn [covered uncovered].
    split; [apply (sum_nonneg (map fst (cu :: cs)))
           |apply (sum_nonneg (map snd (cu :: cs)))].
    + apply Forall_map. eapply Forall_impl; [|exact Hcs]. intros ? [H _]. exact H.
    + apply Forall_map. eapply Forall_impl; [|exact Hcs]. intros ? [_ H]. exact H.
Qed.

Lemma contributions_permutation (lines lines' : list ReportRecord) :
  Permutation lines lines' ->
  Permutation (contributions path_match source_filters lines)
              (contributions path_match source_filters lines').
Proof.
  induction 1 as [|x l l' _ IH|x y l|l l' l'' _ IH1 _ IH2];
    cbn [contributions].
  - constructor.
  - destruct (contribution path_match source_filters x);
      [constructor|]; exact IH.
  - destruct (contribution path_match source_filters x),
      (contribution path_match source_filters y); try reflexivity.
    constructor.
  - etransitivity; eassumption.
Qed.

Lemma sum_permutation (l l' : list Z) :
  Permutation l l' -> fold_right Z.add 0%Z l = fold_right Z.add 0%Z l'.
Proof.
  induction 1 as [|x l l' _ IH|x y l|l l' l'' _ IH1 _ IH2];
    cbn [fold_right]; lia.
Qed.

(** X9. When some method-level record contributes, the result does not
    depend on the order of the lines of the report. *)
Theorem method_sum_order_independent (fs fs' : filesystem)
    (coverage_filename : string) (lines lines' : list ReportRecord) :
  fs coverage_filename = Some lines ->
  fs' coverage_filename = Some lines' ->
  Permutation lines lines' ->
  contributions path_match source_filters lines <> [] ->
  ApplyFunc path_match fs coverage_filename source_filters
  = ApplyFunc path_match fs' coverage_filename source_filters.
Proof.
  intros Hopen Hopen' Hperm Hsome.
  rewrite (ApplyFunc_spec _ _ _ _ _ Hopen), (ApplyFunc_spec _ _ _ _ _ Hopen').
  rewrite (forallb_permutation _ _ _ Hperm).
  destruct (forallb _ lines'); [|reflexivity].
  unfold selected. rewrite !method_sum_spec.
  pose proof (contributions_permutation _ _ Hperm) as Hcs.
  destruct (contributions path_match source_filters lines) as [|cu cs];
    [contradiction|].
  destruct (contributions path_match source_filters lines') as [|cu' cs'].
  - apply Permutation_sym, Permutation_nil in Hcs. discriminate.
  - cbv beta iota zeta.
    rewrite (sum_permutation _ _ (Permutation_map fst Hcs)).
    rewrite (sum_permutation _ _ (Permutation_map snd Hcs)).
    reflexivity.
Qed.

Lemma only_match_all_no_matched (filename : string) :
  Forall (fun kv => is_match_all (snd kv) = true) source_filters ->
  matched_filters path_match source_filters filename = [].
Proof.
  unfold matched_filters.
  induction 1 as [|kv l Hkv _ IH]; cbn [filter]; [reflexivity|].
  rewrite Hkv. cbn [negb andb]. exact IH.
Qed.

Lemma no_matched_no_contribution (data : ReportRecord) :
  (forall filename,
     matched_filters path_match source_filters filename = []) ->
  contribution path_match source_filters data = None.
Proof.
  intros Hnone. unfold contribution.
  destruct (has_file_totals data); [reflexivity|].
  destruct (method_fields data) as [[[[filename name] c] u]|]; [|reflexivity].
  unfold every_matched_accepts. rewrite Hnone. reflexivity.
Qed.

(** X10. When every configured filter is a match-all filter, method-level
    counts are never summed: the result of a report read to its end is its
    first file-level record under one of the globs, or no result. *)
Theorem only_match_all_filters (fs : filesystem)
    (coverage_filename : string) (lines : list ReportRecord) :
  Forall (fun kv => is_match_all (snd kv) = true) source_filters ->
  fs coverage_filename = Some lines ->
  forallb (record_ok path_match source_filters) lines = true ->
  ApplyFunc path_match fs coverage_filename source_filters
  = inr (first_file_offer path_match source_filters lines).
Proof.
  intros Hall Hopen Hok.
  rewrite (ApplyFunc_spec _ _ _ _ _ Hopen), Hok.
  unfold selected, method_sum.
  replace (contributions path_match source_filters lines) with (@nil (Z * Z));
    [reflexivity|].
  clear Hopen Hok. induction lines as [|data l IH]; cbn [contributions].
  - reflexivity.
  - rewrite no_matched_no_contribution; [exact IH|].
    intros filename. apply only_match_all_no_matched. exact Hall.
Qed.

Lemma no_match_all_no_offer (data : ReportRecord) :
  Forall (fun kv => is_match_all (snd kv) = false) source_filters ->
  file_offer path_match source_filters data = None.
Proof.
  intros Hnone. unfold file_offer.
  destruct (file_name (get_file data)) as [filename|]; [|reflexivity].
  destruct (file_total_covered (get_file data)); [|reflexivity].
  destruct (file_total_uncovered (get_file data)); [|reflexivity].
  replace (matches_a_match_all_glob path_match source_filters filename)
    with false; [reflexivity|].
  unfold matches_a_match_all_glob.
  induction Hnone as [|kv l Hkv _ IH]; cbn [existsb]; [reflexivity|].
  rewrite Hkv. exact IH.
Qed.

(** X11. When no configured filter is a match-all filter, file-level
    records are never the result: a report read to its end yields the sum
    of its contributing method-level records, or no result. *)
Theorem no_match_all_filter (fs : filesystem)
    (coverage_filename : string) (lines : list ReportRecord) :
  Forall (fun kv => is_match_all (snd kv) = false) source_filters ->
  fs coverage_filename = Some lines ->
  forallb (record_ok path_match source_filters) lines = true ->
  ApplyFunc path_match fs coverage_filename source_filters
  = inr match contributions path_match source_filters lines with
        | [] => None
        | (_ :: _) as cs =>
            Some {| covered := fold_right Z.add 0%Z (map fst cs);
                    uncovered := fold_right Z.add 0%Z (map snd cs) |}
        end.
Proof.
  intros Hnone Hopen Hok.
  rewrite (ApplyFunc_spec _ _ _ _ _ Hopen), Hok.
  unfold selected. rewrite method_sum_spec.
  destruct (contributions path_match source_filters lines); [|reflexivity].
  f_equal. clear Hopen Hok.
  induction lines as [|data l IH]; cbn [first_file_offer]; [reflexivity|].
  rewrite (no_match_all_no_offer data Hnone). exact IH.
Qed.

End AggregatorInvariants.

(** The counts of the result of the report of the specification. *)
Lemma result_nonneg_witness :
  (0 <= 40 /\ 0 <= 2)%Z.
Proof.
  apply (result_nonneg Examples.suffix_match Examples.filters_both
           (Examples.one_report Examples.report_precedence) "coverage.ade"
           Examples.report_precedence
           {| covered := 40; uncovered := 2 |} eq_refl).
  - repeat (constructor; [repeat split; cbv; try exact I; discriminate|]).
    constructor.
  - reflexivity.
Defined.

(** The report of the specification with its first two lines exchanged. *)
Lemma method_sum_order_independent_witness :
  ApplyFunc Examples.suffix_match
    (Examples.one_report Examples.report_precedence) "coverage.ade"
    Examples.filters_both
  = ApplyFunc Examples.suffix_match
      (Examples.one_report
         [ Examples.method_line "widget.cpp" "pkg::foo::bar" 30 1;
           Examples.file_line "widget.cpp" 100 5;
           Examples.method_line "widget.cpp" "pkg::internal::x" 7 3;
           Examples.method_line "widget.cpp" "pkg::foo::baz" 10 1 ])
      "coverage.ade" Examples.filters_both.
Proof.
  apply (method_sum_order_independent Examples.suffix_match
           Examples.filters_both
           (Examples.one_report Examples.report_precedence) _
           "coverage.ade" Examples.report_precedence _ eq_refl eq_refl).
  - apply perm_swap.
  - intros H. cbv in H. discriminate H.
Defined.

(** The report of the specification under the match-all filter alone: its
    method-level lines do not count. *)
Lemma only_match_all_filters_witness :
  ApplyFunc Examples.suffix_match
    (Examples.one_report Examples.report_precedence) "coverage.ade"
    [("*", Examples.match_all_filter)]
  = inr (Some {| covered := 100; uncovered := 5 |}).
Proof.
  apply (only_match_all_filters Examples.suffix_match
           [("*", Examples.match_all_filter)]
           (Examples.one_report Examples.report_precedence) "coverage.ade"
           Examples.report_precedence).
  - constructor; [reflexivity|constructor].
  - reflexivity.
  - reflexivity.
Defined.

(** The report of the specification without the match-all filter: its
    file-level line does not count. *)
Lemma no_match_all_filter_witness :
  ApplyFunc Examples.suffix_match
    (Examples.one_report [Examples.file_line "widget.cpp" 100 5])
    "coverage.ade" Examples.filters_cpp
  = inr None.
Proof.
  apply (no_match_all_filter Examples.suffix_match Examples.filters_cpp
           (Examples.one_report [Examples.file_line "widget.cpp" 100 5])
           "coverage.ade" [Examples.file_line "widget.cpp" 100 5]).
  - constructor; [reflexivity|constructor].
  - reflexivity.
  - reflexivity.
Defined.

(* ===================================================================== *)
(** ** File names *)
(* ===================================================================== *)

Section NameProperties.

Lemma length_app (s t : string) :
  String.length (s ++ t)%string = String.length s + String.length t.
Proof.
  induction s as [|a s IH]; cbn; [reflexivity|]. now rewrite IH.
Qed.

Lemma substring_all (s : string) : substring 0 (String.length s) s = s.
Proof.
  induction s as [|a s IH]; cbn; [reflexivity|]. now rewrite IH.
Qed.

Lemma substring_prefix (pre rest : string) :
  substring 0 (String.length pre) (pre ++ rest)%string = pre.
Proof.
  induction pre as [|a pre IH]; cbn.
  - destruct rest; reflexivity.
  - now rewrite IH.
Qed.

Lemma substring_suffix (pre rest : string) :
  substring (String.length pre) (String.length rest) (pre ++ rest)%string
  = rest.
Proof.
  induction pre as [|a pre IH]; cbn.
  - apply substring_all.
  - exact IH.
Qed.

Lemma rfind_app (c : ascii) (s t : string) :
  Names.rfind c t = None ->
  Names.rfind c (s ++ String c t)%string = Some (String.length s).
Proof.
  intros Ht. induction s as [|a s IH]; cbn.
  - rewrite Ht, Ascii.eqb_refl. reflexivity.
  - rewrite IH. reflexivity.
Qed.

Lemma rfind_split (c : ascii) (s : string) (i : nat) :
  Names.rfind c s = Some i ->
  exists pre t,
    s = (pre ++ String c t)%string /\ String.length pre = i
    /\ Names.rfind c t = None.
Proof.
  revert i. induction s as [|a s IH]; cbn; intros i H; [discriminate|].
  destruct (Names.rfind c s) as [j|] eqn:Hs.
  - injection H as <-. destruct (IH j eq_refl) as (pre & t & -> & Hl & Ht).
    exists (String a pre), t. cbn. now rewrite Hl.
  - destruct (Ascii.eqb a c) eqn:Hac; [|discriminate].
    injection H as <-. apply Ascii.eqb_eq in Hac. subst a.
    exists EmptyString, s. now cbn.
Qed.

(** The last dot of a name splits it into the text before it and an
    extension without a dot. *)
Lemma tail_from_dot (pre t : string) :
  substring (String.length pre)
            (String.length (pre ++ String "." t) - String.length pre)
            (pre ++ String "." t)%string
  = String "." t.
Proof.
  rewrite length_app.
  replace (String.length pre + String.length (String "." t)
           - String.length pre)
    with (String.length (String "." t)) by lia.
  apply substring_suffix.
Qed.

Lemma endswith_nonempty (s suffix : string) :
  suffix <> EmptyString -> Names.endswith s suffix = true ->
  s <> EmptyString.
Proof.
  intros Hs H ->. cbn in H. rewrite orb_false_r in H.
  destruct suffix; [now apply Hs|discriminate].
Qed.

End NameProperties.

(** X13.  The registration predicate of the activation accepts a file name
    exactly when it is some stem followed by [.py] and the stem ends with
    [TestExecutor]. *)
Theorem plugin_file_iff (name : string) :
  Activate.is_plugin_file ["TestExecutor"] name = true
  <-> exists stem,
        name = (stem ++ ".py")%string
        /\ Names.endswith stem "TestExecutor" = true.
Proof.
  unfold Activate.is_plugin_file, Names.suffix, Names.stem.
  cbn [Py.any existsb]. rewrite orb_false_r. split.
  - intros H. apply andb_true_iff in H. destruct H as [Hsuf Hstem].
    destruct (Names.rfind "." name) as [i|] eqn:Hr; [|discriminate].
    destruct ((0 <? i)%nat && (i <? String.length name - 1)%nat)%bool;
      [|discriminate].
    destruct (rfind_split _ _ _ Hr) as (pre & t & -> & <- & Ht).
    rewrite tail_from_dot in Hsuf. apply String.eqb_eq in Hsuf.
    rewrite substring_prefix in Hstem.
    exists pre. split; [now rewrite Hsuf|exact Hstem].
  - intros (stem & -> & Hend).
    assert (Hne : stem <> EmptyString)
      by (apply (endswith_nonempty _ "TestExecutor"); [discriminate|exact Hend]).
    rewrite (rfind_app "." stem "py" eq_refl).
    rewrite length_app. cbn [String.length].
    replace ((0 <? String.length stem)%nat
             && (String.length stem <? String.length stem + 3 - 1)%nat)%bool
      with true.
    2:{ symmetry. apply andb_true_iff. split; apply Nat.ltb_lt.
        - destruct stem; [contradiction|cbn; lia].
        - lia. }
    replace (String.length stem + 3 - String.length stem) with
      (String.length ".py") by (cbn; lia).
    rewrite substring_suffix, substring_prefix.
    now rewrite Hend.
Qed.

(** X14.  A directory entry counts as an intermediate coverage file exactly
    when its name is some stem followed by [.gcda], where the stem has a
    character other than a dot. *)
Theorem is_gcda_iff (filename : string) :
  Lifecycle.is_gcda filename = true
  <-> exists stem,
        filename = (stem ++ ".gcda")%string
        /\ Names.all_dots stem = false.
Proof.
  unfold Lifecycle.is_gcda, Names.splitext_ext. split.
  - intros H.
    destruct (Names.rfind "." filename) as [i|] eqn:Hr; [|discriminate].
    destruct (rfind_split _ _ _ Hr) as (pre & t & -> & <- & Ht).
    rewrite substring_prefix in H.
    destruct (Names.all_dots pre) eqn:Hd; [discriminate|].
    cbn [negb] in H. rewrite tail_from_dot in H. apply String.eqb_eq in H.
    exists pre. split; [now rewrite H|exact Hd].
  - intros (stem & -> & Hd).
    rewrite (rfind_app "." stem "gcda" eq_refl).
    rewrite substring_prefix, Hd. cbn [negb].
    rewrite (tail_from_dot stem "gcda"). reflexivity.
Qed.

(* ===================================================================== *)
(** ** The intermediate files of the two phases *)
(* ===================================================================== *)

Section LifecycleProperties.

Lemma set_add_In (x y : string) (s : list string) :
  In x (Lifecycle.set_add y s) <-> x = y \/ In x s.
Proof.
  unfold Lifecycle.set_add.
  destruct (existsb (String.eqb y) s) eqn:E.
  - split; [now right|]. intros [->|H]; [|exact H].
    apply existsb_exists in E. destruct E as (z & Hz & Hyz).
    apply String.eqb_eq in Hyz. now subst z.
  - rewrite in_app_iff. cbn. split.
    + intros [H|[H|[]]]; [now right|now left].
    + intros [H|H]; [right; left; now symmetry|now left].
Qed.

Lemma set_add_NoDup (y : string) (s : list string) :
  NoDup s -> NoDup (Lifecycle.set_add y s).
Proof.
  intros Hs. unfold Lifecycle.set_add.
  destruct (existsb (String.eqb y) s) eqn:E; [exact Hs|].
  apply NoDup_app; [exact Hs|repeat constructor; intros []|].
  intros x Hx [<-|[]].
  assert (existsb (String.eqb y) s = true); [|congruence].
  apply existsb_exists. exists y. split; [exact Hx|apply String.eqb_refl].
Qed.

(** The loop with its [break] adds [root] iff some name is a [.gcda] name. *)
Lemma scan_filenames_spec (root : string) (filenames dirs : list string) :
  Lifecycle.scan_filenames root filenames dirs
  = if existsb Lifecycle.is_gcda filenames
    then Lifecycle.set_add root dirs
    else dirs.
Proof.
  induction filenames as [|f fs IH]; cbn; [reflexivity|].
  destruct (Lifecycle.is_gcda f); [reflexivity|exact IH].
Qed.

Lemma stale_files_In (walk : list (string * list string))
    (root filename : string) :
  In (root, filename) (Lifecycle.stale_files walk)
  <-> exists filenames,
        In (root, filenames) walk /\ In filename filenames
        /\ Lifecycle.is_gcda filename = true.
Proof.
  induction walk as [|[r fs] walk IH]; cbn.
  - split; [intros []|intros (? & [] & _)].
  - rewrite in_app_iff, in_map_iff, IH. split.
    + intros [(f & Heq & Hf)|(fs' & Hin & Hf & Hg)].
      * injection Heq as -> ->. apply filter_In in Hf.
        exists fs. split; [now left|exact Hf].
      * exists fs'. split; [now right|now split].
    + intros (fs' & [Heq|Hin] & Hf & Hg).
      * injection Heq as -> ->. left. exists filename.
        split; [reflexivity|]. apply filter_In. now split.
      * right. exists fs'. now repeat split.
Qed.

Lemma fold_scan_In (walk : list (string * list string))
    (dirs : list string) (dir : string) :
  In dir (fold_left
            (fun dirs item =>
               Lifecycle.scan_filenames (fst item) (snd item) dirs)
            walk dirs)
  <-> In dir dirs
      \/ exists filename, In (dir, filename) (Lifecycle.stale_files walk).
Proof.
  revert dirs. induction walk as [|[r fs] walk IH]; intros dirs; cbn.
  - split; [now left|]. intros [H|(? & [])]. exact H.
  - rewrite IH, scan_filenames_spec. split.
    + intros [H|(f & Hf)].
      * destruct (existsb Lifecycle.is_gcda fs) eqn:E; [|now left].
        apply set_add_In in H. destruct H as [->|H]; [|now left].
        apply existsb_exists in E. destruct E as (f & Hf & Hg).
        right. exists f. apply in_app_iff. left.
        apply in_map_iff. exists f. split; [reflexivity|].
        apply filter_In. now split.
      * right. exists f. apply in_app_iff. now right.
    + intros [H|(f & Hf)].
      * left. destruct (existsb Lifecycle.is_gcda fs); [|exact H].
        apply set_add_In. now right.
      * apply in_app_iff in Hf. destruct Hf as [Hf|Hf].
        -- left. apply in_map_iff in Hf. destruct Hf as (f' & Heq & Hf').
           injection Heq as -> ->. apply filter_In in Hf'.
           replace (existsb Lifecycle.is_gcda fs) with true.
           ++ apply set_add_In. now left.
           ++ symmetry. apply existsb_exists. now exists f.
        -- right. now exists f.
Qed.

Lemma fold_scan_NoDup (walk : list (string * list string))
    (dirs : list string) :
  NoDup dirs ->
  NoDup (fold_left
           (fun dirs item =>
              Lifecycle.scan_filenames (fst item) (snd item) dirs)
           walk dirs).
Proof.
  revert dirs. induction walk as [|[r fs] walk IH]; intros dirs H; cbn.
  - exact H.
  - apply IH. rewrite scan_filenames_spec.
    destruct (existsb Lifecycle.is_gcda fs); [|exact H].
    now apply set_add_NoDup.
Qed.

End LifecycleProperties.

(** X15.  Over the same directory listing, the directories that
    [StopCoverage] hands to the merge tool are the parent of the coverage
    file together with exactly the directories that hold a file which
    [StartCoverage] would remove; no directory is handed over twice. *)
Theorem gcda_dirs_are_parent_and_stale_roots
    (parent : string) (walk : list (string * list string)) :
  NoDup (Lifecycle.gcda_dirs parent walk)
  /\ forall dir,
       In dir (Lifecycle.gcda_dirs parent walk)
       <-> dir = parent
           \/ exists filename,
                In (dir, filename) (Lifecycle.stale_files walk).
Proof.
  unfold Lifecycle.gcda_dirs. split.
  - apply fold_scan_NoDup. cbv. repeat constructor. intros [].
  - intros dir. rewrite fold_scan_In. cbv [Lifecycle.set_add existsb app].
    cbn [In]. split.
    + intros [[H|[]]|H]; [left; now symmetry|now right].
    + intros [H|H]; [left; left; now symmetry|now right].
Qed.

(* ===================================================================== *)
(** ** Configurations and their activation *)
(* ===================================================================== *)

(** X12.  Under every shell family and architecture, each declared
    configuration depends on the configuration of Common_LLVM that has its
    own name, and on the configuration of Common_cpp_Development named after
    the architecture, which is always x64 on Windows. *)
Theorem configuration_dependencies
    (family_name current_architecture name : string)
    (cfg : Setup.Configuration) :
  In (name, cfg) (Setup.GetConfigurations family_name current_architecture) ->
  Setup.dependencies cfg
  = [ Setup.llvm_dependency name;
      Setup.cpp_development_dependency
        (if String.eqb family_name "Windows"
         then "x64" else current_architecture) ].
Proof.
  unfold Setup.GetConfigurations. cbn [fold_left].
  unfold Setup.add_architecture.
  destruct (String.eqb family_name "Windows"); cbn; intros H.
  - destruct H as [H|[H|[]]]; injection H as <- <-; reflexivity.
  - destruct H as [H|[]]; injection H as <- <-; reflexivity.
Qed.

Lemma configuration_dependencies_witness :
  Setup.dependencies
    {| Setup.description :=
         "Uses Clang and LLVM 'v15.0.2' (with Microsoft Visual Studio 'v17.4') targeting 'x64'.";
       Setup.dependencies :=
         [ Setup.llvm_dependency "15.0.2-msvc-17.4-x64";
           Setup.cpp_development_dependency "x64" ] |}
  = [ Setup.llvm_dependency "15.0.2-msvc-17.4-x64";
      Setup.cpp_development_dependency "x64" ].
Proof.
  apply (configuration_dependencies "Windows" "arm64"
           "15.0.2-msvc-17.4-x64").
  cbv. right. left. reflexivity.
Defined.

(** X16.  Every configuration name that the setup declares activates
    without an assertion failure when both directories exist; the commands
    are the compiler selection, the registration commands and the tester
    configuration.  On Windows the msvc configuration selects clang-cl (also
    as CC and CXX) and the other one clang; elsewhere nothing is selected. *)
Theorem declared_configurations_activate
    (family_name current_architecture name : string)
    (registration : list Activate.Command) :
  In name
     (map fst (Setup.GetConfigurations family_name current_architecture)) ->
  Activate.GetCustomActions true true family_name (Some name) registration
  = inr ((if String.eqb family_name "Windows" then
            if String.eqb name "15.0.2-msvc-17.4-x64" then
              [ Activate.Set_ "DEVELOPMENT_ENVIRONMENT_CPP_COMPILER_NAME"
                  "clang-cl";
                Activate.Set_ "CC" "clang-cl";
                Activate.Set_ "CXX" "clang-cl" ]
            else
              [ Activate.Set_ "DEVELOPMENT_ENVIRONMENT_CPP_COMPILER_NAME"
                  "clang" ]
          else [])
         ++ registration
         ++ [ Activate.Augment "DEVELOPMENT_ENVIRONMENT_TESTER_CONFIGURATIONS"
                ["cmake-coverage_executor-Clang"] ]).
Proof.
  unfold Setup.GetConfigurations. cbn [fold_left].
  unfold Setup.add_architecture, Activate.GetCustomActions.
  destruct (String.eqb family_name "Windows"); cbn; intros H.
  - destruct H as [<-|[<-|[]]]; reflexivity.
  - destruct H as [<-|[]]. reflexivity.
Qed.

Lemma declared_configurations_activate_witness :
  Activate.GetCustomActions true true "Windows" (Some "15.0.2-msvc-17.4-x64")
    [Activate.Registration "ClangCoverageTestExecutor.py"]
  = inr [ Activate.Set_ "DEVELOPMENT_ENVIRONMENT_CPP_COMPILER_NAME" "clang-cl";
          Activate.Set_ "CC" "clang-cl";
          Activate.Set_ "CXX" "clang-cl";
          Activate.Registration "ClangCoverageTestExecutor.py";
          Activate.Augment "DEVELOPMENT_ENVIRONMENT_TESTER_CONFIGURATIONS"
            ["cmake-coverage_executor-Clang"] ].
Proof.
  apply (declared_configurations_activate "Windows" "arm64"
           "15.0.2-msvc-17.4-x64"
           [Activate.Registration "ClangCoverageTestExecutor.py"]).
  cbv. right. left. reflexivity.
Defined.
